(** * RelationJoinColumnBuilder: join columns, foreign keys and unique
    constraints of many-to-one and one-to-one owner relations.

    Shallow embedding of [src/metadata-builder/RelationJoinColumnBuilder.ts].
    Column metadata objects are mutable and shared in the source, so they
    live in a heap and are named by references; entity and embedded metadata
    objects live in the heap too, because [registerColumn] mutates the owning
    entity and a self-referencing relation has the same object on both sides.
    The three methods of the class are programs of a small state-and-exception
    monad over that heap. *)

From stdpp Require Import list strings.

Local Open Scope string_scope.

(** ** JavaScript values *)

(** An object reference: the index of the object in its heap. *)
Abbreviation ref := nat (only parsing).

(** Truthiness of an optional string property ([!!x] in the source):
    [undefined] and the empty string are falsy. *)
Definition truthy (x : option string) : bool :=
  match x with
  | Some s => negb (String.eqb s "")
  | None => false
  end.

(** Truthiness of a string ([!x] is its negation). *)
Definition truthyString (s : string) : bool := negb (String.eqb s "").

(** [s === x] between a string and an optional string: a string never equals
    [undefined]. *)
Definition strictEq (s : string) (x : option string) : bool :=
  match x with
  | Some t => String.eqb s t
  | None => false
  end.

(** ** Data model *)

Module JoinColumnMetadataArgs.
Record t := mk {
  name : option string;
  referencedColumnName : option string;
  foreignKeyConstraintName : option string
}.
End JoinColumnMetadataArgs.

Module RelationMetadata.
Record t := mk {
  propertyName : string;
  isManyToOne : bool;
  isOneToOne : bool;
  isPrimary : bool;
  isNullable : bool;
  createForeignKeyConstraints : bool;
  onDelete : option string;
  onUpdate : option string;
  deferrable : option string;
  entityMetadata : ref;
  inverseEntityMetadata : ref;
  embeddedMetadata : option ref
}.
End RelationMetadata.

Inductive GenerationStrategy := increment | uuid | rowid | identity.

(** [generationStrategy === "uuid"]. *)
Definition isUuidStrategy (g : option GenerationStrategy) : bool :=
  match g with
  | Some uuid => true
  | _ => false
  end.

Module ColumnMetadata.
Record t := mk {
  target : string;
  entityMetadata : ref;
  embeddedMetadata : option ref;
  relationMetadata : option RelationMetadata.t;
  propertyName : string;
  givenDatabaseName : option string;
  databaseName : string;
  databaseNameWithoutPrefixes : string;
  type : string;
  length : string;
  width : option nat;
  charset : option string;
  collation : option string;
  precision : option nat;
  scale : option nat;
  zerofill : bool;
  unsigned : bool;
  comment : option string;
  enum : option (list string);
  enumName : option string;
  isPrimary : bool;
  isNullable : bool;
  isVirtual : bool;
  generationStrategy : option GenerationStrategy;
  referencedColumn : option ref
}.

(** Field assignments [column.f = v]. *)
Definition set_referencedColumn (v : option ref) (c : t) : t :=
  mk (target c) (entityMetadata c) (embeddedMetadata c) (relationMetadata c)
     (propertyName c) (givenDatabaseName c) (databaseName c)
     (databaseNameWithoutPrefixes c) (type c) (length c) (width c) (charset c)
     (collation c) (precision c) (scale c) (zerofill c) (unsigned c)
     (comment c) (enum c) (enumName c) (isPrimary c) (isNullable c)
     (isVirtual c) (generationStrategy c) v.

Definition set_type (v : string) (c : t) : t :=
  mk (target c) (entityMetadata c) (embeddedMetadata c) (relationMetadata c)
     (propertyName c) (givenDatabaseName c) (databaseName c)
     (databaseNameWithoutPrefixes c) v (length c) (width c) (charset c)
     (collation c) (precision c) (scale c) (zerofill c) (unsigned c)
     (comment c) (enum c) (enumName c) (isPrimary c) (isNullable c)
     (isVirtual c) (generationStrategy c) (referencedColumn c).

Definition set_relationMetadata (v : option RelationMetadata.t) (c : t) : t :=
  mk (target c) (entityMetadata c) (embeddedMetadata c) v
     (propertyName c) (givenDatabaseName c) (databaseName c)
     (databaseNameWithoutPrefixes c) (type c) (length c) (width c) (charset c)
     (collation c) (precision c) (scale c) (zerofill c) (unsigned c)
     (comment c) (enum c) (enumName c) (isPrimary c) (isNullable c)
     (isVirtual c) (generationStrategy c) (referencedColumn c).

Definition set_databaseNames (full short : string) (c : t) : t :=
  mk (target c) (entityMetadata c) (embeddedMetadata c) (relationMetadata c)
     (propertyName c) (givenDatabaseName c) full short (type c) (length c)
     (width c) (charset c) (collation c) (precision c) (scale c) (zerofill c)
     (unsigned c) (comment c) (enum c) (enumName c) (isPrimary c)
     (isNullable c) (isVirtual c) (generationStrategy c) (referencedColumn c).

(** A column object with every property at its default. *)
Definition blank : t :=
  mk "" 0 None None "" None "" "" "" "" None None None None None false false
     None None None false false false None None.
End ColumnMetadata.

Module EntityMetadata.
Record t := mk {
  name : string;
  tableName : string;
  target : string;
  ownColumns : list ref;
  primaryColumns : list ref
}.

Definition set_ownColumns (v : list ref) (e : t) : t :=
  mk (name e) (tableName e) (target e) v (primaryColumns e).

Definition blank : t := mk "" "" "" [] [].
End EntityMetadata.

Module EmbeddedMetadata.
Record t := mk {
  columns : list ref;
  parentPrefixes : list string
}.

Definition blank : t := mk [] [].
End EmbeddedMetadata.

Module ForeignKeyMetadata.
Record t := mk {
  name : option string;
  entityMetadata : ref;
  referencedEntityMetadata : ref;
  columns : list ref;
  referencedColumns : list ref;
  onDelete : option string;
  onUpdate : option string;
  deferrable : option string
}.
End ForeignKeyMetadata.

Module UniqueMetadata.
Record t := mk {
  entityMetadata : ref;
  columns : list ref;
  givenName : string;
  target : string;
  name : option string
}.
End UniqueMetadata.

#[global] Instance ColumnMetadata_inhabited : Inhabited ColumnMetadata.t :=
  populate ColumnMetadata.blank.
#[global] Instance EntityMetadata_inhabited : Inhabited EntityMetadata.t :=
  populate EntityMetadata.blank.
#[global] Instance EmbeddedMetadata_inhabited : Inhabited EmbeddedMetadata.t :=
  populate EmbeddedMetadata.blank.

(** ** Collaborators: naming strategy, driver, data source *)

Module NamingStrategy.
Record t := mk {
  joinColumnName : string -> string -> string;
  relationConstraintName : string -> list string -> string;
  columnName : string -> option string -> list string -> string
}.
End NamingStrategy.

(** Modelled from the spec: the driver capability facade of section 6
    ([DriverUtils.isMySQLFamily], the driver's type tag and
    [normalizeType]); the driver classes are not among the sources. *)
Module Driver.
Record t := mk {
  isMySQLFamily : bool;
  options_type : string;
  normalizeType : ColumnMetadata.t -> string
}.
End Driver.

Module DataSource.
Record t := mk {
  namingStrategy : NamingStrategy.t;
  driver : Driver.t
}.
End DataSource.

(** ** Heap, errors and the monad *)

(** Constructor calls, recorded in order. This is a ghost trace: the source
    has no such list, it only makes "was constructed" observable. *)
Inductive Allocation :=
  | NewColumnMetadata (r : ref)
  | ClonedColumnMetadata (original r : ref)
  | NewForeignKeyMetadata
  | NewUniqueMetadata.

Module Heap.
Record t := mk {
  columns : list ColumnMetadata.t;
  entities : list EntityMetadata.t;
  embeddeds : list EmbeddedMetadata.t;
  allocations : list Allocation
}.
End Heap.

(** [TypeORMError] with the one message this class raises:
    "Referenced column <name> was not found in entity <entity>". *)
Inductive TypeORMError :=
  | ReferencedColumnNotFound (referencedColumnName : option string)
                             (entityName : string).

Inductive Outcome (A : Type) :=
  | Returned (a : A)
  | Thrown (e : TypeORMError).
Arguments Returned {A} a.
Arguments Thrown {A} e.

(** A computation runs on a heap and ends by returning or throwing; either
    way the heap it leaves behind is part of the result, as mutations made
    before a JavaScript exception persist. *)
Definition M (A : Type) : Type := Heap.t -> Outcome A * Heap.t.

#[global] Instance M_ret : MRet M := fun A a h => (Returned a, h).

#[global] Instance M_bind : MBind M := fun A B f m h =>
  match m h with
  | (Returned a, h') => f a h'
  | (Thrown e, h') => (Thrown e, h')
  end.

#[global] Instance M_fmap : FMap M := fun A B f m h =>
  match m h with
  | (Returned a, h') => (Returned (f a), h')
  | (Thrown e, h') => (Thrown e, h')
  end.

Definition throw {A} (e : TypeORMError) : M A := fun h => (Thrown e, h).

Definition readColumn (r : ref) : M ColumnMetadata.t :=
  fun h => (Returned (Heap.columns h !!! r), h).

Definition modifyColumn (r : ref) (f : ColumnMetadata.t -> ColumnMetadata.t)
  : M unit :=
  fun h => (Returned tt,
            Heap.mk (<[r := f (Heap.columns h !!! r)]> (Heap.columns h))
                    (Heap.entities h) (Heap.embeddeds h) (Heap.allocations h)).

Definition allocColumn (c : ColumnMetadata.t) : M ref :=
  fun h => (Returned (length (Heap.columns h)),
            Heap.mk (Heap.columns h ++ [c])
                    (Heap.entities h) (Heap.embeddeds h) (Heap.allocations h)).

Definition readEntity (e : ref) : M EntityMetadata.t :=
  fun h => (Returned (Heap.entities h !!! e), h).

Definition modifyEntity (e : ref) (f : EntityMetadata.t -> EntityMetadata.t)
  : M unit :=
  fun h => (Returned tt,
            Heap.mk (Heap.columns h)
                    (<[e := f (Heap.entities h !!! e)]> (Heap.entities h))
                    (Heap.embeddeds h) (Heap.allocations h)).

Definition readEmbedded (e : ref) : M EmbeddedMetadata.t :=
  fun h => (Returned (Heap.embeddeds h !!! e), h).

Definition record (a : Allocation) : M unit :=
  fun h => (Returned tt,
            Heap.mk (Heap.columns h) (Heap.entities h) (Heap.embeddeds h)
                    (Heap.allocations h ++ [a])).

(** [columns.find(p)] over an array of column references: the first
    reference whose object satisfies [p], if any. *)
Definition findColumn (p : ColumnMetadata.t -> bool) (columns : list ref)
  : M (option ref) :=
  fun h => (Returned (List.find (fun r => p (Heap.columns h !!! r)) columns), h).

(** [columns.every(p)]. *)
Definition everyColumn (p : ColumnMetadata.t -> bool) (columns : list ref)
  : M bool :=
  fun h => (Returned (forallb (fun r => p (Heap.columns h !!! r)) columns), h).

(** ** Collaborators that are not among the sources *)

Module ColumnOptions.
Record t := mk {
  name : option string;
  type : string;
  length : string;
  width : option nat;
  charset : option string;
  collation : option string;
  precision : option nat;
  scale : option nat;
  zerofill : bool;
  unsigned : bool;
  comment : option string;
  enum : option (list string);
  enumName : option string;
  primary : bool;
  nullable : bool
}.
End ColumnOptions.

(** Modelled from the spec: the [ColumnMetadata] constructor, which is not
    among the sources. Section 4.2 step 3: the new descriptor copies the
    attributes handed to it in the options; it has no referenced-column link
    yet and its derived names are computed later by the build step. *)
Definition new_ColumnMetadata (entityMetadata : ref)
    (embeddedMetadata : option ref) (target mode propertyName : string)
    (options : ColumnOptions.t) : M ref :=
  r ← allocColumn
        (ColumnMetadata.mk target entityMetadata embeddedMetadata None
           propertyName
           (if truthy (ColumnOptions.name options)
            then ColumnOptions.name options else None)
           "" ""
           (ColumnOptions.type options) (ColumnOptions.length options)
           (ColumnOptions.width options) (ColumnOptions.charset options)
           (ColumnOptions.collation options) (ColumnOptions.precision options)
           (ColumnOptions.scale options) (ColumnOptions.zerofill options)
           (ColumnOptions.unsigned options) (ColumnOptions.comment options)
           (ColumnOptions.enum options) (ColumnOptions.enumName options)
           (ColumnOptions.primary options) (ColumnOptions.nullable options)
           (String.eqb mode "virtual") None None);
  record (NewColumnMetadata r);;
  mret r.

(** Modelled from the spec: [ColumnMetadata.build], which is not among the
    sources. Section 4.2 step 5: the step computes the derived physical
    names of the descriptor; declared attributes are left alone. *)
Definition ColumnMetadata_build (connection : DataSource.t) (r : ref)
  : M unit :=
  c ← readColumn r;
  prefixes ← match ColumnMetadata.embeddedMetadata c with
             | Some e => EmbeddedMetadata.parentPrefixes <$> readEmbedded e
             | None => mret []
             end;
  let columnName :=
    NamingStrategy.columnName (DataSource.namingStrategy connection)
      (ColumnMetadata.propertyName c) (ColumnMetadata.givenDatabaseName c) in
  modifyColumn r (ColumnMetadata.set_databaseNames (columnName prefixes)
                                                   (columnName [])).

(** Modelled from the spec: [EntityMetadata.registerColumn], which is not
    among the sources. The registry is append-only and holds a descriptor at
    most once (section 2 and invariant 2 of section 3). *)
Definition registerColumn (entityMetadata : ref) (column : ref) : M unit :=
  e ← readEntity entityMetadata;
  if existsb (Nat.eqb column) (EntityMetadata.ownColumns e)
  then mret tt
  else modifyEntity entityMetadata
         (EntityMetadata.set_ownColumns (EntityMetadata.ownColumns e ++ [column])).

(** Modelled from the spec: [OrmUtils.cloneObject] on a column, which is not
    among the sources. Invariant 3 of section 3: a new independent descriptor
    with the same attributes. *)
Definition cloneObject (r : ref) : M ref :=
  c ← readColumn r;
  r' ← allocColumn c;
  record (ClonedColumnMetadata r r');;
  mret r'.

(** Modelled from the spec: the [ForeignKeyMetadata] constructor, which is
    not among the sources; it stores what it is given (section 3). The
    naming strategy that [build] passes along serves the constructor to
    resolve a constraint name; that resolution and the constructor's
    defaults for the actions are not modelled, so [name], [onDelete] and
    [onUpdate] of the record are the options as [build] passes them and not
    the resolved properties of the key. *)
Definition new_ForeignKeyMetadata (fk : ForeignKeyMetadata.t)
  : M ForeignKeyMetadata.t :=
  record NewForeignKeyMetadata;;
  mret fk.

(** Modelled from the spec: the [UniqueMetadata] constructor, which is not
    among the sources; it stores the entity, the columns and the arguments'
    name and target, with no resolved name yet. *)
Definition new_UniqueMetadata (entityMetadata : ref) (columns : list ref)
    (args_name args_target : string) : M UniqueMetadata.t :=
  record NewUniqueMetadata;;
  mret (UniqueMetadata.mk entityMetadata columns args_name args_target None).

(** Modelled from the spec: [UniqueMetadata.build], which is not among the
    sources; finalisation resolves the constraint name from the given one
    (section 4.3 step 4). *)
Definition UniqueMetadata_build (u : UniqueMetadata.t) : UniqueMetadata.t :=
  UniqueMetadata.mk (UniqueMetadata.entityMetadata u) (UniqueMetadata.columns u)
    (UniqueMetadata.givenName u) (UniqueMetadata.target u)
    (Some (UniqueMetadata.givenName u)).

(** ** The class *)

Module BuildResult.
Record t := mk {
  foreignKey : option ForeignKeyMetadata.t;
  columns : list ref;
  uniqueConstraint : option UniqueMetadata.t
}.
End BuildResult.

Section RelationJoinColumnBuilder.

Variable connection : DataSource.t.

(** The callback of [joinColumns.map] in [collectReferencedColumns]. *)
Definition findReferencedColumn (relation : RelationMetadata.t)
    (joinColumn : JoinColumnMetadataArgs.t) : M ref :=
  inverse ← readEntity (RelationMetadata.inverseEntityMetadata relation);
  referencedColumn ←
    findColumn
      (fun column =>
         strictEq (ColumnMetadata.propertyName column)
                  (JoinColumnMetadataArgs.referencedColumnName joinColumn))
      (EntityMetadata.ownColumns inverse);
  match referencedColumn with
  | None =>
      throw (ReferencedColumnNotFound
               (JoinColumnMetadataArgs.referencedColumnName joinColumn)
               (EntityMetadata.name inverse))
  | Some r => mret r
  end.

Definition collectReferencedColumns
    (joinColumns : list JoinColumnMetadataArgs.t)
    (relation : RelationMetadata.t) : M (list ref) :=
  let hasAnyReferencedColumnName :=
    List.find
      (fun joinColumnArgs =>
         truthy (JoinColumnMetadataArgs.referencedColumnName joinColumnArgs))
      joinColumns in
  let manyToOneWithoutJoinColumn :=
    Nat.eqb (length joinColumns) 0 && RelationMetadata.isManyToOne relation in
  let hasJoinColumnWithoutAnyReferencedColumnName :=
    Nat.ltb 0 (length joinColumns)
    && negb (bool_decide (is_Some hasAnyReferencedColumnName)) in
  if manyToOneWithoutJoinColumn || hasJoinColumnWithoutAnyReferencedColumnName
  then
    inverse ← readEntity (RelationMetadata.inverseEntityMetadata relation);
    mret (EntityMetadata.primaryColumns inverse)
  else
    mapM (findReferencedColumn relation) joinColumns.

(** The name looked up and given to the join column of one referenced
    column (the first statements of the callback in [collectColumns]). *)
Definition joinColumnNameFor (joinColumns : list JoinColumnMetadataArgs.t)
    (relation : RelationMetadata.t) (referencedColumn : ColumnMetadata.t)
  : option string :=
  let joinColumnMetadataArg :=
    List.find
      (fun joinColumn =>
         (negb (truthy (JoinColumnMetadataArgs.referencedColumnName joinColumn))
          || strictEq (ColumnMetadata.propertyName referencedColumn)
                      (JoinColumnMetadataArgs.referencedColumnName joinColumn))
         && truthy (JoinColumnMetadataArgs.name joinColumn))
      joinColumns in
  match joinColumnMetadataArg with
  | Some joinColumnMetadataArg => JoinColumnMetadataArgs.name joinColumnMetadataArg
  | None =>
      Some (NamingStrategy.joinColumnName (DataSource.namingStrategy connection)
              (RelationMetadata.propertyName relation)
              (ColumnMetadata.propertyName referencedColumn))
  end.

(** The options of the virtual column created for a referenced column. *)
Definition joinColumnOptions (relation : RelationMetadata.t)
    (joinColumnName : option string) (referencedColumn : ColumnMetadata.t)
  : ColumnOptions.t :=
  ColumnOptions.mk
    joinColumnName
    (ColumnMetadata.type referencedColumn)
    (if negb (truthyString (ColumnMetadata.length referencedColumn))
        && (Driver.isMySQLFamily (DataSource.driver connection)
            || String.eqb (Driver.options_type (DataSource.driver connection))
                          "aurora-mysql")
        && negb (String.eqb
                   (Driver.normalizeType (DataSource.driver connection)
                                         referencedColumn)
                   "uuid")
        && (isUuidStrategy (ColumnMetadata.generationStrategy referencedColumn)
            || String.eqb (ColumnMetadata.type referencedColumn) "uuid")
     then "36"
     else ColumnMetadata.length referencedColumn)
    (ColumnMetadata.width referencedColumn)
    (ColumnMetadata.charset referencedColumn)
    (ColumnMetadata.collation referencedColumn)
    (ColumnMetadata.precision referencedColumn)
    (ColumnMetadata.scale referencedColumn)
    (ColumnMetadata.zerofill referencedColumn)
    (ColumnMetadata.unsigned referencedColumn)
    (ColumnMetadata.comment referencedColumn)
    (ColumnMetadata.enum referencedColumn)
    (ColumnMetadata.enumName referencedColumn)
    (RelationMetadata.isPrimary relation)
    (RelationMetadata.isNullable relation).

(** The last statements of the callback in [collectColumns], which run on
    the relational column whether it is new, reused or cloned: the three
    assignments, the build step and the return. *)
Definition linkRelationalColumn (relation : RelationMetadata.t)
    (referencedColumn relationalColumn : ref) : M ref :=
  modifyColumn relationalColumn
    (ColumnMetadata.set_referencedColumn (Some referencedColumn));;
  rc ← readColumn referencedColumn;
  modifyColumn relationalColumn
    (ColumnMetadata.set_type (ColumnMetadata.type rc));;
  modifyColumn relationalColumn
    (ColumnMetadata.set_relationMetadata (Some relation));;
  ColumnMetadata_build connection relationalColumn;;
  mret relationalColumn.

(** The callback of [referencedColumns.map] in [collectColumns]. *)
Definition collectColumn (joinColumns : list JoinColumnMetadataArgs.t)
    (relation : RelationMetadata.t) (referencedColumn : ref) : M ref :=
  rc ← readColumn referencedColumn;
  let joinColumnName := joinColumnNameFor joinColumns relation rc in
  relationalColumns ←
    match RelationMetadata.embeddedMetadata relation with
    | Some e => EmbeddedMetadata.columns <$> readEmbedded e
    | None =>
        EntityMetadata.ownColumns
          <$> readEntity (RelationMetadata.entityMetadata relation)
    end;
  found ←
    findColumn
      (fun column =>
         strictEq (ColumnMetadata.databaseNameWithoutPrefixes column)
                  joinColumnName)
      relationalColumns;
  relationalColumn ←
    match found with
    | None =>
        r ← new_ColumnMetadata
              (RelationMetadata.entityMetadata relation)
              (RelationMetadata.embeddedMetadata relation)
              "" "virtual" (RelationMetadata.propertyName relation)
              (joinColumnOptions relation joinColumnName rc);
        registerColumn (RelationMetadata.entityMetadata relation) r;;
        mret r
    | Some r =>
        c ← readColumn r;
        if bool_decide (is_Some (ColumnMetadata.referencedColumn c))
        then cloneObject r
        else mret r
    end;
  linkRelationalColumn relation referencedColumn relationalColumn.

Definition collectColumns (joinColumns : list JoinColumnMetadataArgs.t)
    (relation : RelationMetadata.t) (referencedColumns : list ref)
  : M (list ref) :=
  mapM (collectColumn joinColumns relation) referencedColumns.

Definition build (joinColumns : list JoinColumnMetadataArgs.t)
    (relation : RelationMetadata.t) : M BuildResult.t :=
  referencedColumns ← collectReferencedColumns joinColumns relation;
  columns ← collectColumns joinColumns relation referencedColumns;
  if Nat.eqb (length referencedColumns) 0
     || negb (RelationMetadata.createForeignKeyConstraints relation)
  then mret (BuildResult.mk None columns None)
  else
    foreignKey ←
      new_ForeignKeyMetadata
        (ForeignKeyMetadata.mk
           (head joinColumns ≫= JoinColumnMetadataArgs.foreignKeyConstraintName)
           (RelationMetadata.entityMetadata relation)
           (RelationMetadata.inverseEntityMetadata relation)
           columns
           referencedColumns
           (RelationMetadata.onDelete relation)
           (RelationMetadata.onUpdate relation)
           (RelationMetadata.deferrable relation));
    allPrimary ← everyColumn ColumnMetadata.isPrimary columns;
    if allPrimary || negb (RelationMetadata.isOneToOne relation)
    then mret (BuildResult.mk (Some foreignKey) columns None)
    else
      entityMetadata ← readEntity (RelationMetadata.entityMetadata relation);
      databaseNames ←
        mapM (fun column => ColumnMetadata.databaseName <$> readColumn column)
             (ForeignKeyMetadata.columns foreignKey);
      uniqueConstraint ←
        new_UniqueMetadata
          (RelationMetadata.entityMetadata relation)
          (ForeignKeyMetadata.columns foreignKey)
          (NamingStrategy.relationConstraintName
             (DataSource.namingStrategy connection)
             (EntityMetadata.tableName entityMetadata)
             databaseNames)
          (EntityMetadata.target entityMetadata);
      mret (BuildResult.mk (Some foreignKey) columns
              (Some (UniqueMetadata_build uniqueConstraint))).

End RelationJoinColumnBuilder.

(** ** Vocabulary of the specification *)

(** A join-column spec carries a referenced-property name when the property
    is set to a non-empty string; this is what the source tests. *)
Definition carriesReferencedName (joinColumn : JoinColumnMetadataArgs.t) : Prop :=
  truthy (JoinColumnMetadataArgs.referencedColumnName joinColumn) = true.

(** The condition of section 4.1 under which the primary key is used. *)
Definition defaultsToPrimaryKey (joinColumns : list JoinColumnMetadataArgs.t)
    (relation : RelationMetadata.t) : Prop :=
  (joinColumns = [] ∧ RelationMetadata.isManyToOne relation = true)
  ∨ (joinColumns ≠ [] ∧ Forall (fun j => ¬ carriesReferencedName j) joinColumns).

(** The entity on the referenced side of a relation. *)
Definition targetOf (h : Heap.t) (relation : RelationMetadata.t)
  : EntityMetadata.t :=
  Heap.entities h !!! RelationMetadata.inverseEntityMetadata relation.

(** The entity on the owning side of a relation. *)
Definition ownerOf (h : Heap.t) (relation : RelationMetadata.t)
  : EntityMetadata.t :=
  Heap.entities h !!! RelationMetadata.entityMetadata relation.

(** [r] is the own column of the target that a spec names: its property name
    is the spec's referenced-property name, and no own column before it has
    that property name. *)
Definition namedOwnColumn (h : Heap.t) (relation : RelationMetadata.t)
    (joinColumn : JoinColumnMetadataArgs.t) (r : ref) : Prop :=
  ∃ before after : list ref,
    EntityMetadata.ownColumns (targetOf h relation) = (before ++ r :: after)%list
    ∧ JoinColumnMetadataArgs.referencedColumnName joinColumn
      = Some (ColumnMetadata.propertyName (Heap.columns h !!! r))
    ∧ Forall (fun r' =>
                JoinColumnMetadataArgs.referencedColumnName joinColumn
                ≠ Some (ColumnMetadata.propertyName (Heap.columns h !!! r')))
             before.

(** No own column of the target has the property name a spec refers to. *)
Definition namesNoOwnColumn (h : Heap.t) (relation : RelationMetadata.t)
    (joinColumn : JoinColumnMetadataArgs.t) : Prop :=
  Forall (fun r =>
            JoinColumnMetadataArgs.referencedColumnName joinColumn
            ≠ Some (ColumnMetadata.propertyName (Heap.columns h !!! r)))
         (EntityMetadata.ownColumns (targetOf h relation)).

(** What looking up every spec ends in: the named own columns, in the order
    of the specs, or the error for a spec that names no own column. *)
Definition lookupOutcome (h : Heap.t) (relation : RelationMetadata.t)
    (joinColumns : list JoinColumnMetadataArgs.t) (o : Outcome (list ref))
  : Prop :=
  match o with
  | Returned rs => Forall2 (namedOwnColumn h relation) joinColumns rs
  | Thrown e =>
      ∃ j, j ∈ joinColumns ∧ namesNoOwnColumn h relation j
           ∧ e = ReferencedColumnNotFound
                   (JoinColumnMetadataArgs.referencedColumnName j)
                   (EntityMetadata.name (targetOf h relation))
  end.

(** A spec can name the join column of a referenced column: its
    referenced-property name is unset or is the column's property name, and
    its own name is set. *)
Definition namesJoinColumnOf (referencedColumn : ColumnMetadata.t)
    (joinColumn : JoinColumnMetadataArgs.t) : Prop :=
  (truthy (JoinColumnMetadataArgs.referencedColumnName joinColumn) = false
   ∨ JoinColumnMetadataArgs.referencedColumnName joinColumn
     = Some (ColumnMetadata.propertyName referencedColumn))
  ∧ truthy (JoinColumnMetadataArgs.name joinColumn) = true.

(** A column with the properties erased that [linkRelationalColumn] sets:
    what is left are the attributes a clone shares with its original. *)
Definition declaredAttributes (c : ColumnMetadata.t) : ColumnMetadata.t :=
  ColumnMetadata.set_databaseNames "" ""
    (ColumnMetadata.set_relationMetadata None
       (ColumnMetadata.set_type ""
          (ColumnMetadata.set_referencedColumn None c))).

(** The naming strategy returns a given, non-empty column name as it is
    when there are no embedded prefixes. *)
Definition keepsGivenNames (connection : DataSource.t) : Prop :=
  ∀ propertyName name,
    truthy (Some name) = true →
    NamingStrategy.columnName (DataSource.namingStrategy connection)
      propertyName (Some name) []
    = name.

(** A column that was built with the connection's naming strategy: its name
    without prefixes is the one the build step computes for it. *)
Definition builtWith (connection : DataSource.t) (c : ColumnMetadata.t) : Prop :=
  NamingStrategy.columnName (DataSource.namingStrategy connection)
    (ColumnMetadata.propertyName c) (ColumnMetadata.givenDatabaseName c) []
  = ColumnMetadata.databaseNameWithoutPrefixes c.

(** The embedded prefixes of a column. *)
Definition prefixesOf (h : Heap.t) (c : ColumnMetadata.t) : list string :=
  match ColumnMetadata.embeddedMetadata c with
  | Some e => EmbeddedMetadata.parentPrefixes (Heap.embeddeds h !!! e)
  | None => []
  end.

(** The column scope searched for an existing join column. *)
Definition relationalColumnsOf (h : Heap.t) (relation : RelationMetadata.t)
  : list ref :=
  match RelationMetadata.embeddedMetadata relation with
  | Some e => EmbeddedMetadata.columns (Heap.embeddeds h !!! e)
  | None => EntityMetadata.ownColumns (ownerOf h relation)
  end.

(** The driver is a MySQL-compatible dialect. *)
Definition mySQLCompatible (connection : DataSource.t) : bool :=
  Driver.isMySQLFamily (DataSource.driver connection)
  || String.eqb (Driver.options_type (DataSource.driver connection))
                "aurora-mysql".

(** The four conditions of the UUID length rule of section 4.2 step 3. *)
Definition needsUuidLength (connection : DataSource.t)
    (referencedColumn : ColumnMetadata.t) : Prop :=
  ColumnMetadata.length referencedColumn = ""
  ∧ mySQLCompatible connection = true
  ∧ Driver.normalizeType (DataSource.driver connection) referencedColumn ≠ "uuid"
  ∧ (ColumnMetadata.generationStrategy referencedColumn = Some uuid
     ∨ ColumnMetadata.type referencedColumn = "uuid").

(** Every reference held by the heap's entities, embeddeds and column links
    points into the column heap: there are no dangling references, as in any
    JavaScript object graph. *)
Definition wellFormed (h : Heap.t) : Prop :=
  Forall (fun e => Forall (fun r => r < length (Heap.columns h))
                          (EntityMetadata.ownColumns e)
                   ∧ Forall (fun r => r < length (Heap.columns h))
                            (EntityMetadata.primaryColumns e))
         (Heap.entities h)
  ∧ Forall (fun e => Forall (fun r => r < length (Heap.columns h))
                            (EmbeddedMetadata.columns e))
           (Heap.embeddeds h).

(** ** The effect of one callback run, as a function of the heap *)

Definition withColumns (columns : list ColumnMetadata.t) (h : Heap.t) : Heap.t :=
  Heap.mk columns (Heap.entities h) (Heap.embeddeds h) (Heap.allocations h).

(** The existing column the callback finds for a referenced column. *)
Definition foundColumn (connection : DataSource.t)
    (joinColumns : list JoinColumnMetadataArgs.t)
    (relation : RelationMetadata.t) (referencedColumn : ref) (h : Heap.t)
  : option ref :=
  List.find
    (fun r =>
       strictEq
         (ColumnMetadata.databaseNameWithoutPrefixes (Heap.columns h !!! r))
         (joinColumnNameFor connection joinColumns relation
            (Heap.columns h !!! referencedColumn)))
    (relationalColumnsOf h relation).

(** The relational column as [linkRelationalColumn] leaves it. *)
Definition linkedColumn (connection : DataSource.t)
    (relation : RelationMetadata.t) (referencedColumn relationalColumn : ref)
    (h : Heap.t) : ColumnMetadata.t :=
  let c :=
    ColumnMetadata.set_relationMetadata (Some relation)
      (ColumnMetadata.set_type
         (ColumnMetadata.type (Heap.columns h !!! referencedColumn))
         (ColumnMetadata.set_referencedColumn (Some referencedColumn)
            (Heap.columns h !!! relationalColumn))) in
  let columnName :=
    NamingStrategy.columnName (DataSource.namingStrategy connection)
      (ColumnMetadata.propertyName c) (ColumnMetadata.givenDatabaseName c) in
  ColumnMetadata.set_databaseNames
    (columnName
       match ColumnMetadata.embeddedMetadata c with
       | Some e => EmbeddedMetadata.parentPrefixes (Heap.embeddeds h !!! e)
       | None => []
       end)
    (columnName []) c.

Definition linked (connection : DataSource.t) (relation : RelationMetadata.t)
    (referencedColumn relationalColumn : ref) (h : Heap.t) : Heap.t :=
  withColumns
    (<[relationalColumn :=
         linkedColumn connection relation referencedColumn relationalColumn h]>
       (Heap.columns h))
    h.

(** The heap after a virtual column was constructed and registered. *)
Definition created (relation : RelationMetadata.t) (options : ColumnOptions.t)
    (h : Heap.t) : Heap.t :=
  let r := length (Heap.columns h) in
  let owner := RelationMetadata.entityMetadata relation in
  let e := Heap.entities h !!! owner in
  Heap.mk
    (Heap.columns h
     ++ [ColumnMetadata.mk "" owner (RelationMetadata.embeddedMetadata relation)
           None (RelationMetadata.propertyName relation)
           (if truthy (ColumnOptions.name options)
            then ColumnOptions.name options else None)
           "" ""
           (ColumnOptions.type options) (ColumnOptions.length options)
           (ColumnOptions.width options) (ColumnOptions.charset options)
           (ColumnOptions.collation options) (ColumnOptions.precision options)
           (ColumnOptions.scale options) (ColumnOptions.zerofill options)
           (ColumnOptions.unsigned options) (ColumnOptions.comment options)
           (ColumnOptions.enum options) (ColumnOptions.enumName options)
           (ColumnOptions.primary options) (ColumnOptions.nullable options)
           true None None])
    (if existsb (Nat.eqb r) (EntityMetadata.ownColumns e)
     then Heap.entities h
     else <[owner := EntityMetadata.set_ownColumns
                       (EntityMetadata.ownColumns e ++ [r]) e]>
            (Heap.entities h))
    (Heap.embeddeds h)
    (Heap.allocations h ++ [NewColumnMetadata r]).

(** The heap after column [original] was cloned. *)
Definition cloned (original : ref) (h : Heap.t) : Heap.t :=
  Heap.mk (Heap.columns h ++ [Heap.columns h !!! original])
    (Heap.entities h) (Heap.embeddeds h)
    (Heap.allocations h
     ++ [ClonedColumnMetadata original (length (Heap.columns h))]).

(** The column returned for a referenced column and the heap left behind. *)
Definition resolved (connection : DataSource.t)
    (joinColumns : list JoinColumnMetadataArgs.t)
    (relation : RelationMetadata.t) (referencedColumn : ref) (h : Heap.t)
  : ref * Heap.t :=
  let fresh := length (Heap.columns h) in
  match foundColumn connection joinColumns relation referencedColumn h with
  | None =>
      (fresh,
       linked connection relation referencedColumn fresh
         (created relation
            (joinColumnOptions connection relation
               (joinColumnNameFor connection joinColumns relation
                  (Heap.columns h !!! referencedColumn))
               (Heap.columns h !!! referencedColumn))
            h))
  | Some r =>
      if bool_decide
           (is_Some (ColumnMetadata.referencedColumn (Heap.columns h !!! r)))
      then (fresh, linked connection relation referencedColumn fresh (cloned r h))
      else (r, linked connection relation referencedColumn r h)
  end.

(** The columns returned for a list of referenced columns, in order. *)
Fixpoint resolvedAll (connection : DataSource.t)
    (joinColumns : list JoinColumnMetadataArgs.t)
    (relation : RelationMetadata.t) (referencedColumns : list ref)
    (h : Heap.t) : list ref * Heap.t :=
  match referencedColumns with
  | [] => ([], h)
  | referencedColumn :: rest =>
      let '(r, h1) :=
        resolved connection joinColumns relation referencedColumn h in
      let '(rs, h2) := resolvedAll connection joinColumns relation rest h1 in
      (r :: rs, h2)
  end.

(** The references of the columns constructed, and of the columns cloned,
    in a list of constructor calls. *)
Definition constructedColumns (allocations : list Allocation) : list ref :=
  omap (fun a => match a with NewColumnMetadata r => Some r | _ => None end)
       allocations.


(** ** Allocation and registration *)

(** The references of all columns allocated, constructed or cloned. *)
Definition allocatedColumns (allocations : list Allocation) : list ref :=
  omap (fun a => match a with
                 | NewColumnMetadata r | ClonedColumnMetadata _ r => Some r
                 | _ => None
                 end)
       allocations.

Definition allocatesColumn (a : Allocation) : Prop :=
  match a with
  | NewColumnMetadata _ | ClonedColumnMetadata _ _ => True
  | _ => False
  end.

(** Heap [h'] comes from [h] by resolving columns of [relation], with the
    constructor calls [new]: the columns allocated are the next free
    references in order, the constructed ones are appended to the owner's
    own columns, and nothing else of the entities and embeddeds changes. *)
Definition extends (relation : RelationMetadata.t) (h h' : Heap.t)
    (new : list Allocation) : Prop :=
  Heap.allocations h' = (Heap.allocations h ++ new)%list
  ∧ (length (Heap.columns h) ≤ length (Heap.columns h'))%nat
  ∧ allocatedColumns new
    = seq (length (Heap.columns h))
          (length (Heap.columns h') - length (Heap.columns h))
  ∧ Forall allocatesColumn new
  ∧ EntityMetadata.ownColumns (ownerOf h' relation)
    = (EntityMetadata.ownColumns (ownerOf h relation)
       ++ constructedColumns new)%list
  ∧ (∀ e, e ≠ RelationMetadata.entityMetadata relation →
          Heap.entities h' !!! e = Heap.entities h !!! e)
  ∧ Heap.embeddeds h' = Heap.embeddeds h
  ∧ length (Heap.entities h') = length (Heap.entities h).

(** ** The result of [build] *)

(** The heap after one more constructor call was recorded. *)
Definition recorded (a : Allocation) (h : Heap.t) : Heap.t :=
  Heap.mk (Heap.columns h) (Heap.entities h) (Heap.embeddeds h)
          (Heap.allocations h ++ [a]).

(** The foreign key [build] constructs. *)
Definition foreignKeyOf (joinColumns : list JoinColumnMetadataArgs.t)
    (relation : RelationMetadata.t) (columns referencedColumns : list ref)
  : ForeignKeyMetadata.t :=
  ForeignKeyMetadata.mk
    (head joinColumns ≫= JoinColumnMetadataArgs.foreignKeyConstraintName)
    (RelationMetadata.entityMetadata relation)
    (RelationMetadata.inverseEntityMetadata relation)
    columns referencedColumns
    (RelationMetadata.onDelete relation)
    (RelationMetadata.onUpdate relation)
    (RelationMetadata.deferrable relation).

(** The unique constraint [build] constructs. *)
Definition uniqueConstraintOf (connection : DataSource.t)
    (relation : RelationMetadata.t) (columns : list ref) (h : Heap.t)
  : UniqueMetadata.t :=
  UniqueMetadata_build
    (UniqueMetadata.mk
       (RelationMetadata.entityMetadata relation)
       columns
       (NamingStrategy.relationConstraintName
          (DataSource.namingStrategy connection)
          (EntityMetadata.tableName (ownerOf h relation))
          (map (fun r => ColumnMetadata.databaseName (Heap.columns h !!! r))
               columns))
       (EntityMetadata.target (ownerOf h relation))
       None).

(** Whether [build] returns without a unique constraint. *)
Definition skipsUniqueConstraint (relation : RelationMetadata.t)
    (columns : list ref) (h : Heap.t) : bool :=
  forallb (fun r => ColumnMetadata.isPrimary (Heap.columns h !!! r)) columns
  || negb (RelationMetadata.isOneToOne relation).

(** ** Sample schemas *)

Module Sample.

Definition namingStrategy : NamingStrategy.t :=
  NamingStrategy.mk
    (fun relationName referencedColumnName =>
       relationName ++ "_" ++ referencedColumnName)
    (fun tableName columnNames =>
       "REL_" ++ tableName ++ "_" ++ String.concat "_" columnNames)
    (fun propertyName customName prefixes =>
       String.concat "_" prefixes
       ++ (if truthy customName then default "" customName else propertyName)).

(** A driver with a native uuid type. *)
Definition postgres : DataSource.t :=
  DataSource.mk namingStrategy
    (Driver.mk false "postgres" ColumnMetadata.type).

(** A driver of the MySQL family, which stores uuid values as varchar. *)
Definition mysql : DataSource.t :=
  DataSource.mk namingStrategy
    (Driver.mk true "mysql"
       (fun column =>
          if String.eqb (ColumnMetadata.type column) "uuid"
          then "varchar" else ColumnMetadata.type column)).

(** A declared, built column of entity [entity]. *)
Definition column (entity : ref) (propertyName type : string)
    (isPrimary : bool) : ColumnMetadata.t :=
  ColumnMetadata.mk "" entity None None propertyName None propertyName
    propertyName type "" None None None None None false false None None None
    isPrimary false false None None.

Definition manyToOne (propertyName : string) (owner target : ref)
  : RelationMetadata.t :=
  RelationMetadata.mk propertyName true false false true true None None None
    owner target None.

Definition oneToOne (propertyName : string) (owner target : ref)
  : RelationMetadata.t :=
  RelationMetadata.mk propertyName false true false true true None None None
    owner target None.

(** Entity 0 is Post (id, title), entity 1 is Category (id, title, code). *)
Definition blog : Heap.t :=
  Heap.mk
    [ column 0 "id" "int" true; column 0 "title" "varchar" false;
      column 1 "id" "int" true; column 1 "title" "varchar" false;
      column 1 "code" "uuid" false ]
    [ EntityMetadata.mk "Post" "post" "Post" [0; 1] [0];
      EntityMetadata.mk "Category" "category" "Category" [2; 3; 4] [2] ]
    [] [].

Definition category : RelationMetadata.t := manyToOne "category" 0 1.
Definition mainCategory : RelationMetadata.t := manyToOne "mainCategory" 0 1.
Definition cover : RelationMetadata.t := oneToOne "cover" 0 1.

Definition named (name : string) : JoinColumnMetadataArgs.t :=
  JoinColumnMetadataArgs.mk (Some name) None None.

Definition referencing (referencedColumnName : string)
  : JoinColumnMetadataArgs.t :=
  JoinColumnMetadataArgs.mk None (Some referencedColumnName) None.

Definition joinColumn (name referencedColumnName : string)
  : JoinColumnMetadataArgs.t :=
  JoinColumnMetadataArgs.mk (Some name) (Some referencedColumnName) None.

(** The blog after the relation [category] was resolved with its join column
    named "category_id". *)
Definition blogWithCategory : Heap.t :=
  Eval vm_compute in snd (build postgres [named "category_id"] category blog).

(** A self-referencing entity Node (a : int, the primary key, and
    b : varchar) with a relation from Node to Node. *)
Definition nodes : Heap.t :=
  Heap.mk
    [ column 0 "a" "int" true; column 0 "b" "varchar" false ]
    [ EntityMetadata.mk "Node" "node" "Node" [0; 1] [0] ]
    [] [].

Definition link : RelationMetadata.t := manyToOne "link" 0 0.

(** Entity 0 is Post with the column id and an embedded "data" (embedded 0)
    that holds the column note; entity 1 is Category (id). *)
Definition embeddedBlog : Heap.t :=
  Heap.mk
    [ column 0 "id" "int" true;
      ColumnMetadata.mk "" 0 (Some 0) None "note" None "datanote" "note"
        "varchar" "" None None None None None false false None None None
        false false false None None;
      column 1 "id" "int" true ]
    [ EntityMetadata.mk "Post" "post" "Post" [0; 1] [0];
      EntityMetadata.mk "Category" "category" "Category" [2] [2] ]
    [ EmbeddedMetadata.mk [1] ["data"] ]
    [].

(** A many-to-one relation from Post to Category declared inside the
    embedded "data". *)
Definition dataCategory : RelationMetadata.t :=
  RelationMetadata.mk "category" true false false true true None None None
    0 1 (Some 0).

End Sample.

(** * Proofs *)

Local Close Scope string_scope.

(** ** Running computations *)

Lemma bind_run {A B} (m : M A) (f : A -> M B) h :
  (m ≫= f) h = match m h with
               | (Returned a, h') => f a h'
               | (Thrown e, h') => (Thrown e, h')
               end.
Proof. reflexivity. Qed.

Lemma fmap_run {A B} (g : A -> B) (m : M A) h :
  (g <$> m) h = match m h with
                | (Returned a, h') => (Returned (g a), h')
                | (Thrown e, h') => (Thrown e, h')
                end.
Proof. reflexivity. Qed.

Lemma mapM_cons_run {A B} (f : A -> M B) x l h :
  mapM f (x :: l) h =
  match f x h with
  | (Returned y, h1) =>
      match mapM f l h1 with
      | (Returned ys, h2) => (Returned (y :: ys), h2)
      | (Thrown e, h2) => (Thrown e, h2)
      end
  | (Thrown e, h1) => (Thrown e, h1)
  end.
Proof. reflexivity. Qed.

Lemma type_after_link (columns : list ColumnMetadata.t) r referencedColumn v :
  ColumnMetadata.type
    (<[r := ColumnMetadata.set_referencedColumn v (columns !!! r)]> columns
       !!! referencedColumn)
  = ColumnMetadata.type (columns !!! referencedColumn).
Proof.
  destruct (decide (r = referencedColumn)) as [->|Hne].
  - destruct (decide (referencedColumn < length columns)) as [Hlt|Hge].
    + rewrite list_lookup_total_insert_eq by done. reflexivity.
    + rewrite list_insert_ge by lia. reflexivity.
  - rewrite list_lookup_total_insert_ne by done. reflexivity.
Qed.


Lemma ret_run {A} (a : A) (h : Heap.t) : (mret a : M A) h = (Returned a, h).
Proof. reflexivity. Qed.

Ltac run :=
  repeat (rewrite ?bind_run, ?fmap_run, ?ret_run;
          cbn [modifyColumn readColumn readEntity readEmbedded modifyEntity
               allocColumn record findColumn everyColumn throw
               Heap.columns Heap.entities Heap.embeddeds Heap.allocations]).

Lemma linkRelationalColumn_run connection relation referencedColumn r h :
  linkRelationalColumn connection relation referencedColumn r h
  = (Returned r, linked connection relation referencedColumn r h).
Proof.
  unfold linkRelationalColumn, ColumnMetadata_build, linked, linkedColumn, withColumns.
  run. rewrite type_after_link.
  destruct (decide (r < length (Heap.columns h))) as [Hlt|Hge].
  - rewrite !list_lookup_total_insert_eq by (rewrite ?length_insert; done).
    rewrite !list_insert_insert_eq.
    cbn [ColumnMetadata.embeddedMetadata ColumnMetadata.set_relationMetadata ColumnMetadata.set_type ColumnMetadata.set_referencedColumn].
    destruct (ColumnMetadata.embeddedMetadata (Heap.columns h !!! r)); run;
      rewrite ?list_lookup_total_insert_eq by (rewrite ?length_insert; done);
      rewrite ?list_insert_insert_eq; reflexivity.
  - rewrite !(list_insert_ge (Heap.columns h)) by lia.
    destruct (ColumnMetadata.embeddedMetadata (Heap.columns h !!! r)); run;
      rewrite !(list_insert_ge (Heap.columns h)) by lia; reflexivity.
Qed.


Lemma create_run relation options h :
  (r ← new_ColumnMetadata (RelationMetadata.entityMetadata relation)
         (RelationMetadata.embeddedMetadata relation) "" "virtual"
         (RelationMetadata.propertyName relation) options;
   registerColumn (RelationMetadata.entityMetadata relation) r;;
   mret r) h
  = (Returned (length (Heap.columns h)), created relation options h).
Proof.
  unfold new_ColumnMetadata, registerColumn, created. run.
  destruct (existsb _ _); run; reflexivity.
Qed.

Lemma cloneObject_run r h :
  cloneObject r h = (Returned (length (Heap.columns h)), cloned r h).
Proof. reflexivity. Qed.

Lemma collectColumn_run connection joinColumns relation referencedColumn h :
  collectColumn connection joinColumns relation referencedColumn h
  = (Returned (fst (resolved connection joinColumns relation referencedColumn h)),
     snd (resolved connection joinColumns relation referencedColumn h)).
Proof.
  unfold collectColumn, resolved, foundColumn.
  rewrite bind_run. cbn [readColumn]. rewrite bind_run.
  replace (match RelationMetadata.embeddedMetadata relation with
           | Some e => EmbeddedMetadata.columns <$> readEmbedded e
           | None => EntityMetadata.ownColumns
                       <$> readEntity (RelationMetadata.entityMetadata relation)
           end h)
    with (Returned (relationalColumnsOf h relation), h)
    by (unfold relationalColumnsOf, ownerOf;
        destruct (RelationMetadata.embeddedMetadata relation); reflexivity).
  rewrite bind_run. cbn [findColumn].
  destruct (List.find _ _) as [r|].
  - rewrite (bind_run (readColumn r ≫= _)), (bind_run (readColumn r)).
    cbn [readColumn].
    destruct (bool_decide _).
    + rewrite cloneObject_run, linkRelationalColumn_run. reflexivity.
    + rewrite ret_run, linkRelationalColumn_run. reflexivity.
  - rewrite (bind_run (_ ≫= _)), create_run, linkRelationalColumn_run.
    reflexivity.
Qed.

Lemma collectColumns_run connection joinColumns relation referencedColumns h :
  collectColumns connection joinColumns relation referencedColumns h
  = (Returned (fst (resolvedAll connection joinColumns relation referencedColumns h)),
     snd (resolvedAll connection joinColumns relation referencedColumns h)).
Proof.
  unfold collectColumns. revert h.
  induction referencedColumns as [|rc rest IH]; intros h; [reflexivity|].
  rewrite mapM_cons_run, collectColumn_run, IH. cbn [resolvedAll].
  destruct (resolved _ _ _ _ _) as [r h1]. cbn [fst snd].
  destruct (resolvedAll _ _ _ _ _) as [rs h2]. reflexivity.
Qed.

Lemma strictEq_true s x : strictEq s x = true ↔ x = Some s.
Proof.
  destruct x as [t|]; simpl.
  - rewrite String.eqb_eq. split; [intros ->; reflexivity | intros [= ->]; reflexivity].
  - split; discriminate.
Qed.

Lemma strictEq_false s x : strictEq s x = false ↔ x ≠ Some s.
Proof.
  rewrite <- strictEq_true. destruct (strictEq s x); split; congruence.
Qed.

Lemma find_Some_first {A} (p : A -> bool) l x :
  List.find p l = Some x →
  ∃ before after : list A,
    l = (before ++ x :: after)%list ∧ p x = true
    ∧ Forall (fun y => p y = false) before.
Proof.
  induction l as [|y l IH]; [discriminate|]. simpl.
  destruct (p y) eqn:Ey.
  - intros [= ->]. exists [], l. auto.
  - intros Hfind. destruct (IH Hfind) as (before & after & -> & Hx & Hbefore).
    exists (y :: before), after. auto.
Qed.

Lemma find_None_all {A} (p : A -> bool) l :
  List.find p l = None ↔ Forall (fun y => p y = false) l.
Proof.
  induction l as [|y l IH]; simpl.
  - split; auto.
  - destruct (p y) eqn:Ey.
    + split; [discriminate|]. intros H. inversion H; congruence.
    + rewrite IH. split; [auto|]. intros H. inversion H; auto.
Qed.

Lemma findReferencedColumn_run relation joinColumn h :
  findReferencedColumn relation joinColumn h =
  (match List.find (fun r => strictEq (ColumnMetadata.propertyName (Heap.columns h !!! r))
                               (JoinColumnMetadataArgs.referencedColumnName joinColumn))
                   (EntityMetadata.ownColumns (targetOf h relation)) with
   | Some r => Returned r
   | None => Thrown (ReferencedColumnNotFound
                       (JoinColumnMetadataArgs.referencedColumnName joinColumn)
                       (EntityMetadata.name (targetOf h relation)))
   end, h).
Proof.
  unfold findReferencedColumn, targetOf. run.
  destruct (List.find _ _); reflexivity.
Qed.

Lemma findReferencedColumn_Returned relation joinColumn h r h' :
  findReferencedColumn relation joinColumn h = (Returned r, h') →
  h' = h ∧ namedOwnColumn h relation joinColumn r.
Proof.
  rewrite findReferencedColumn_run.
  destruct (List.find _ _) as [r0|] eqn:Efind; intros [= <- <-].
  split; [reflexivity|].
  apply find_Some_first in Efind as (before & after & Hown & Hr & Hbefore).
  exists before, after. split; [exact Hown|]. split.
  - apply strictEq_true. exact Hr.
  - eapply Forall_impl; [exact Hbefore|]. intros r'. apply strictEq_false.
Qed.

Lemma findReferencedColumn_Thrown relation joinColumn h e h' :
  findReferencedColumn relation joinColumn h = (Thrown e, h') →
  h' = h ∧ namesNoOwnColumn h relation joinColumn
  ∧ e = ReferencedColumnNotFound
          (JoinColumnMetadataArgs.referencedColumnName joinColumn)
          (EntityMetadata.name (targetOf h relation)).
Proof.
  rewrite findReferencedColumn_run.
  destruct (List.find _ _) as [r0|] eqn:Efind; intros [= <- <-].
  split; [reflexivity|]. split; [|reflexivity].
  apply find_None_all in Efind.
  eapply Forall_impl; [exact Efind|]. intros r'. apply strictEq_false.
Qed.

Lemma findReferencedColumns_run relation joinColumns h :
  ∃ o, mapM (findReferencedColumn relation) joinColumns h = (o, h)
       ∧ lookupOutcome h relation joinColumns o.
Proof.
  induction joinColumns as [|j rest IH].
  - exists (Returned []). split; [reflexivity | constructor].
  - rewrite mapM_cons_run.
    destruct (findReferencedColumn relation j h) as [[r|e] h1] eqn:Ej.
    + apply findReferencedColumn_Returned in Ej as [-> Hr].
      destruct IH as ([rs|e] & -> & Hrest).
      * exists (Returned (r :: rs)). split; [reflexivity|]. constructor; assumption.
      * exists (Thrown e). split; [reflexivity|].
        destruct Hrest as (j' & Hin & Hno & ->).
        exists j'. split; [right; exact Hin | auto].
    + apply findReferencedColumn_Thrown in Ej as (-> & Hno & ->).
      eexists. split; [reflexivity|]. exists j. split; [left | auto].
Qed.

Lemma hasAny_None joinColumns :
  List.find (fun j => truthy (JoinColumnMetadataArgs.referencedColumnName j)) joinColumns = None
  ↔ Forall (fun j => ¬ carriesReferencedName j) joinColumns.
Proof.
  rewrite find_None_all. unfold carriesReferencedName.
  split; intros H; (eapply Forall_impl; [exact H|]); intros j Hj; simpl in *.
  - congruence.
  - destruct (truthy _); congruence.
Qed.

Lemma collectReferencedColumns_default joinColumns relation h :
  defaultsToPrimaryKey joinColumns relation →
  collectReferencedColumns joinColumns relation h
  = (Returned (EntityMetadata.primaryColumns (targetOf h relation)), h).
Proof.
  unfold collectReferencedColumns.
  intros [[-> Hm]|[Hne Hnone]].
  - simpl. rewrite Hm. reflexivity.
  - apply hasAny_None in Hnone. rewrite Hnone.
    destruct joinColumns; [done|]. reflexivity.
Qed.

Lemma collectReferencedColumns_lookup joinColumns relation h :
  ¬ defaultsToPrimaryKey joinColumns relation →
  collectReferencedColumns joinColumns relation h
  = mapM (findReferencedColumn relation) joinColumns h.
Proof.
  unfold collectReferencedColumns, defaultsToPrimaryKey. intros Hnot.
  destruct joinColumns as [|j rest].
  - simpl. destruct (RelationMetadata.isManyToOne relation) eqn:Em; [|reflexivity].
    exfalso. apply Hnot. left. auto.
  - destruct (List.find _ (j :: rest)) as [j'|] eqn:Efind.
    + cbn [length Nat.eqb Nat.ltb Nat.leb andb orb].
      rewrite bool_decide_eq_true_2 by eauto. reflexivity.
    + exfalso. apply Hnot. right. split; [done|]. apply hasAny_None. exact Efind.
Qed.

Lemma defaultsToPrimaryKey_dec joinColumns relation :
  defaultsToPrimaryKey joinColumns relation ∨ ¬ defaultsToPrimaryKey joinColumns relation.
Proof.
  unfold defaultsToPrimaryKey.
  destruct joinColumns as [|j rest].
  - destruct (RelationMetadata.isManyToOne relation); [left; left; auto|].
    right. intros [[_ ?]|[? _]]; congruence.
  - destruct (List.find (fun j => truthy (JoinColumnMetadataArgs.referencedColumnName j)) (j :: rest)) eqn:E.
    + right. intros [[? _]|[_ H]]; [discriminate|].
      apply hasAny_None in H. congruence.
    + left. right. split; [done|]. apply hasAny_None. exact E.
Qed.

Lemma collectReferencedColumns_heap joinColumns relation h o h' :
  collectReferencedColumns joinColumns relation h = (o, h') → h' = h.
Proof.
  destruct (defaultsToPrimaryKey_dec joinColumns relation) as [Hd|Hn].
  - rewrite collectReferencedColumns_default by exact Hd.
    intros [= _ <-]. reflexivity.
  - rewrite collectReferencedColumns_lookup by exact Hn.
    destruct (findReferencedColumns_run relation joinColumns h) as (o' & -> & _).
    intros [= _ <-]. reflexivity.
Qed.

Lemma collectReferencedColumns_Returned joinColumns relation h referencedColumns h' :
  collectReferencedColumns joinColumns relation h = (Returned referencedColumns, h') →
  referencedColumns = EntityMetadata.primaryColumns (targetOf h relation)
  ∨ Forall2 (namedOwnColumn h relation) joinColumns referencedColumns.
Proof.
  destruct (defaultsToPrimaryKey_dec joinColumns relation) as [Hd|Hn].
  - rewrite collectReferencedColumns_default by exact Hd.
    intros [= <- _]. left. reflexivity.
  - rewrite collectReferencedColumns_lookup by exact Hn.
    destruct (findReferencedColumns_run relation joinColumns h) as (o' & -> & Hout).
    intros [= -> _]. right. exact Hout.
Qed.

(** C1. [collectReferencedColumns] returns the primary-key columns of the
    target entity, in their order, when the spec list is empty and the
    relation is many-to-one or when the list is non-empty and no spec
    carries a referenced-property name; in every other case it looks up, for
    each spec in order, the own column of the target whose property name is
    the spec's referenced-property name. The heap is not changed. *)
Theorem referenced_columns_resolution joinColumns relation h :
  (defaultsToPrimaryKey joinColumns relation
   ∧ collectReferencedColumns joinColumns relation h
     = (Returned (EntityMetadata.primaryColumns (targetOf h relation)), h))
  ∨ (¬ defaultsToPrimaryKey joinColumns relation
     ∧ ∃ o, collectReferencedColumns joinColumns relation h = (o, h)
            ∧ lookupOutcome h relation joinColumns o).
Proof.
  destruct (defaultsToPrimaryKey_dec joinColumns relation) as [Hd|Hn].
  - left. split; [exact Hd|]. apply collectReferencedColumns_default, Hd.
  - right. split; [exact Hn|]. rewrite collectReferencedColumns_lookup by exact Hn.
    apply findReferencedColumns_run.
Qed.

Lemma carries_not_default joinColumns relation j :
  j ∈ joinColumns → carriesReferencedName j →
  ¬ defaultsToPrimaryKey joinColumns relation.
Proof.
  intros Hin Hj [[-> _]|[_ Hall]].
  - inversion Hin.
  - rewrite Forall_forall in Hall. exact (Hall j Hin Hj).
Qed.

Lemma named_contradicts_none h relation j r :
  namedOwnColumn h relation j r → namesNoOwnColumn h relation j → False.
Proof.
  intros (before & after & Hown & Hname & _) Hnone.
  unfold namesNoOwnColumn in Hnone. rewrite Hown in Hnone.
  apply Forall_app in Hnone as [_ Hnone]. inversion Hnone; subst. contradiction.
Qed.

Lemma lookup_aborts joinColumns relation h j :
  j ∈ joinColumns → namesNoOwnColumn h relation j →
  ∃ name,
    mapM (findReferencedColumn relation) joinColumns h
    = (Thrown (ReferencedColumnNotFound name
                 (EntityMetadata.name (targetOf h relation))), h).
Proof.
  intros Hin Hnone.
  destruct (findReferencedColumns_run relation joinColumns h) as ([rs|e] & Hrun & Hout).
  - exfalso. simpl in Hout.
    apply list_elem_of_lookup in Hin as [i Hi].
    destruct (Forall2_lookup_l _ _ _ _ _ Hout Hi) as (r & _ & Hr).
    exact (named_contradicts_none _ _ _ _ Hr Hnone).
  - destruct Hout as (j' & _ & _ & ->). eexists. exact Hrun.
Qed.

Lemma build_Thrown connection joinColumns relation h e :
  collectReferencedColumns joinColumns relation h = (Thrown e, h) →
  build connection joinColumns relation h = (Thrown e, h).
Proof. intros H. unfold build. rewrite bind_run, H. reflexivity. Qed.

(** C5. If a spec names a referenced property that no own column of the
    target has, [build] raises the referenced-column-not-found error and
    leaves the heap as it was: no column is created or registered and no
    foreign key or unique constraint is returned. *)
Theorem missing_referenced_column_aborts connection joinColumns relation h j :
  j ∈ joinColumns →
  carriesReferencedName j →
  namesNoOwnColumn h relation j →
  ∃ name,
    build connection joinColumns relation h
    = (Thrown (ReferencedColumnNotFound name
                 (EntityMetadata.name (targetOf h relation))), h).
Proof.
  intros Hin Hcarries Hnone.
  destruct (lookup_aborts joinColumns relation h j Hin Hnone) as [name Hrun].
  exists name. apply build_Thrown.
  rewrite collectReferencedColumns_lookup by (eapply carries_not_default; eauto).
  exact Hrun.
Qed.

Lemma absent_name_names_nothing h relation j :
  JoinColumnMetadataArgs.referencedColumnName j = None →
  namesNoOwnColumn h relation j.
Proof.
  intros Hj. unfold namesNoOwnColumn. rewrite Hj.
  apply Forall_forall. intros r _. discriminate.
Qed.

(** C10. If one spec carries a referenced-property name and another has
    none, every spec is looked up: the lookup of the spec without a name
    fails, and [collectReferencedColumns] and [build] raise the
    referenced-column-not-found error instead of using the primary key. *)
Theorem mixed_specs_abort connection joinColumns relation h j1 j2 :
  j1 ∈ joinColumns →
  carriesReferencedName j1 →
  j2 ∈ joinColumns →
  JoinColumnMetadataArgs.referencedColumnName j2 = None →
  collectReferencedColumns joinColumns relation h
  = mapM (findReferencedColumn relation) joinColumns h
  ∧ findReferencedColumn relation j2 h
    = (Thrown (ReferencedColumnNotFound None
                 (EntityMetadata.name (targetOf h relation))), h)
  ∧ ∃ name,
      collectReferencedColumns joinColumns relation h
      = (Thrown (ReferencedColumnNotFound name
                   (EntityMetadata.name (targetOf h relation))), h)
      ∧ build connection joinColumns relation h
        = (Thrown (ReferencedColumnNotFound name
                     (EntityMetadata.name (targetOf h relation))), h).
Proof.
  intros Hin1 Hcarries Hin2 Habsent.
  pose proof (carries_not_default joinColumns relation j1 Hin1 Hcarries) as Hnot.
  pose proof (absent_name_names_nothing h relation j2 Habsent) as Hnone.
  split; [apply collectReferencedColumns_lookup, Hnot|]. split.
  - rewrite findReferencedColumn_run.
    destruct (List.find _ _) as [r|] eqn:Efind.
    + apply List.find_some in Efind as [_ Hr]. rewrite Habsent in Hr. discriminate.
    + rewrite Habsent. reflexivity.
  - destruct (lookup_aborts joinColumns relation h j2 Hin2 Hnone) as [name Hrun].
    exists name.
    assert (collectReferencedColumns joinColumns relation h
            = (Thrown (ReferencedColumnNotFound name
                         (EntityMetadata.name (targetOf h relation))), h)) as Hc.
    { rewrite collectReferencedColumns_lookup by exact Hnot. exact Hrun. }
    split; [exact Hc | apply build_Thrown, Hc].
Qed.

(** ** Frame properties of one callback run *)

Lemma linked_length connection relation referencedColumn r h :
  length (Heap.columns (linked connection relation referencedColumn r h))
  = length (Heap.columns h).
Proof. simpl. apply length_insert. Qed.

Lemma linked_other connection relation referencedColumn r h i :
  i ≠ r →
  Heap.columns (linked connection relation referencedColumn r h) !!! i
  = Heap.columns h !!! i.
Proof. intros Hne. simpl. apply list_lookup_total_insert_ne. congruence. Qed.

Lemma linked_self connection relation referencedColumn r h :
  r < length (Heap.columns h) →
  Heap.columns (linked connection relation referencedColumn r h) !!! r
  = linkedColumn connection relation referencedColumn r h.
Proof. intros Hlt. simpl. apply list_lookup_total_insert_eq. exact Hlt. Qed.

Lemma linked_in_range (h : Heap.t) i :
  is_Some (ColumnMetadata.referencedColumn (Heap.columns h !!! i)) →
  i < length (Heap.columns h).
Proof.
  intros Hlink. destruct (decide (i < length (Heap.columns h))) as [|Hge]; [done|].
  rewrite list_lookup_total_alt, lookup_ge_None_2 in Hlink by lia.
  destruct Hlink as [? Hlink]. discriminate Hlink.
Qed.

(** The three ways a referenced column gets its join column. *)
Lemma resolved_cases connection joinColumns relation referencedColumn h :
  let fresh := length (Heap.columns h) in
  let name :=
    joinColumnNameFor connection joinColumns relation
      (Heap.columns h !!! referencedColumn) in
  (foundColumn connection joinColumns relation referencedColumn h = None
   ∧ resolved connection joinColumns relation referencedColumn h
     = (fresh,
        linked connection relation referencedColumn fresh
          (created relation
             (joinColumnOptions connection relation name
                (Heap.columns h !!! referencedColumn)) h)))
  ∨ (∃ original,
       foundColumn connection joinColumns relation referencedColumn h
       = Some original
       ∧ is_Some (ColumnMetadata.referencedColumn (Heap.columns h !!! original))
       ∧ resolved connection joinColumns relation referencedColumn h
         = (fresh,
            linked connection relation referencedColumn fresh (cloned original h)))
  ∨ (∃ r,
       foundColumn connection joinColumns relation referencedColumn h = Some r
       ∧ ColumnMetadata.referencedColumn (Heap.columns h !!! r) = None
       ∧ resolved connection joinColumns relation referencedColumn h
         = (r, linked connection relation referencedColumn r h)).
Proof.
  unfold resolved.
  destruct (foundColumn _ _ _ _ _) as [r0|]; [|left; auto].
  right.
  destruct (ColumnMetadata.referencedColumn (Heap.columns h !!! r0)) as [l|] eqn:El.
  - rewrite bool_decide_eq_true_2 by eauto. left. exists r0. eauto.
  - rewrite bool_decide_eq_false_2 by (intros [? ?]; discriminate).
    right. exists r0. auto.
Qed.

Lemma foundColumn_in_scope connection joinColumns relation referencedColumn h r :
  foundColumn connection joinColumns relation referencedColumn h = Some r →
  r ∈ relationalColumnsOf h relation
  ∧ joinColumnNameFor connection joinColumns relation
      (Heap.columns h !!! referencedColumn)
    = Some (ColumnMetadata.databaseNameWithoutPrefixes (Heap.columns h !!! r)).
Proof.
  unfold foundColumn. intros Hfind. apply List.find_some in Hfind as [Hin Hname].
  split; [apply list_elem_of_In, Hin | apply strictEq_true, Hname].
Qed.

Lemma resolved_length connection joinColumns relation referencedColumn h :
  length (Heap.columns h)
  ≤ length (Heap.columns (snd (resolved connection joinColumns relation referencedColumn h))).
Proof.
  destruct (resolved_cases connection joinColumns relation referencedColumn h)
    as [[_ ->]|[(r0 & _ & _ & ->)|(r & _ & _ & ->)]];
    cbn [snd]; rewrite linked_length; simpl; rewrite ?length_app; lia.
Qed.

(** A column that carries a referenced-column link is not touched. *)
Lemma resolved_frame connection joinColumns relation referencedColumn h i :
  is_Some (ColumnMetadata.referencedColumn (Heap.columns h !!! i)) →
  Heap.columns (snd (resolved connection joinColumns relation referencedColumn h)) !!! i
  = Heap.columns h !!! i.
Proof.
  intros Hlink. pose proof (linked_in_range h i Hlink) as Hlt.
  destruct (resolved_cases connection joinColumns relation referencedColumn h)
    as [[_ ->]|[(r0 & _ & _ & ->)|(r & _ & Hnone & ->)]]; cbn [snd].
  - rewrite linked_other by lia. apply lookup_total_app_l. exact Hlt.
  - rewrite linked_other by lia. apply lookup_total_app_l. exact Hlt.
  - apply linked_other. intros E. rewrite E, Hnone in Hlink.
    destruct Hlink as [? ?]. discriminate.
Qed.

Lemma resolvedAll_length connection joinColumns relation referencedColumns h :
  length (fst (resolvedAll connection joinColumns relation referencedColumns h))
  = length referencedColumns.
Proof.
  revert h. induction referencedColumns as [|rc rest IH]; intros h; [reflexivity|].
  simpl. destruct (resolved _ _ _ _ _) as [r h1].
  specialize (IH h1). destruct (resolvedAll _ _ _ _ _) as [rs h2].
  simpl in *. congruence.
Qed.

Lemma resolvedAll_frame connection joinColumns relation referencedColumns h i :
  is_Some (ColumnMetadata.referencedColumn (Heap.columns h !!! i)) →
  Heap.columns (snd (resolvedAll connection joinColumns relation referencedColumns h)) !!! i
  = Heap.columns h !!! i.
Proof.
  revert h. induction referencedColumns as [|rc rest IH]; intros h Hlink; [reflexivity|].
  simpl.
  pose proof (resolved_frame connection joinColumns relation rc h i Hlink) as Hstep.
  destruct (resolved _ _ _ _ _) as [r h1]. simpl in Hstep.
  specialize (IH h1). destruct (resolvedAll _ _ _ _ _) as [rs h2]. simpl in *.
  rewrite IH by (rewrite Hstep; exact Hlink). exact Hstep.
Qed.

(** ** What the returned column looks like *)

Lemma linkedColumn_link connection relation referencedColumn r h :
  ColumnMetadata.referencedColumn
    (linkedColumn connection relation referencedColumn r h)
  = Some referencedColumn.
Proof. reflexivity. Qed.

Lemma linkedColumn_type connection relation referencedColumn r h :
  ColumnMetadata.type (linkedColumn connection relation referencedColumn r h)
  = ColumnMetadata.type (Heap.columns h !!! referencedColumn).
Proof. reflexivity. Qed.

Lemma linked_type_of_referenced connection relation referencedColumn r h :
  ColumnMetadata.type
    (Heap.columns (linked connection relation referencedColumn r h)
       !!! referencedColumn)
  = ColumnMetadata.type (Heap.columns h !!! referencedColumn).
Proof.
  destruct (decide (referencedColumn = r)) as [->|Hne].
  - destruct (decide (r < length (Heap.columns h))) as [Hlt|Hge].
    + rewrite linked_self by exact Hlt. reflexivity.
    + simpl. rewrite list_insert_ge by lia. reflexivity.
  - rewrite linked_other by exact Hne. reflexivity.
Qed.

(** The column returned for a referenced column is allocated, carries the
    link to it and has its type. *)
Lemma resolved_link connection joinColumns relation referencedColumn h :
  Forall (fun r => r < length (Heap.columns h)) (relationalColumnsOf h relation) →
  referencedColumn < length (Heap.columns h) →
  let r := fst (resolved connection joinColumns relation referencedColumn h) in
  let h' := snd (resolved connection joinColumns relation referencedColumn h) in
  r < length (Heap.columns h')
  ∧ ColumnMetadata.referencedColumn (Heap.columns h' !!! r) = Some referencedColumn
  ∧ ColumnMetadata.type (Heap.columns h' !!! r)
    = ColumnMetadata.type (Heap.columns h !!! referencedColumn)
  ∧ ColumnMetadata.type (Heap.columns h' !!! referencedColumn)
    = ColumnMetadata.type (Heap.columns h !!! referencedColumn).
Proof.
  intros Hscope Hrc. cbv zeta.
  destruct (resolved_cases connection joinColumns relation referencedColumn h)
    as [[_ ->]|[(r0 & _ & _ & ->)|(r & Hfound & _ & ->)]]; cbn [fst snd].
  - rewrite linked_length, linked_type_of_referenced.
    rewrite linked_self by (simpl; rewrite length_app; simpl; lia).
    rewrite linkedColumn_link, linkedColumn_type. simpl.
    rewrite length_app, lookup_total_app_l by exact Hrc. simpl.
    repeat split; lia || reflexivity.
  - rewrite linked_length, linked_type_of_referenced.
    rewrite linked_self by (simpl; rewrite length_app; simpl; lia).
    rewrite linkedColumn_link, linkedColumn_type. simpl.
    rewrite length_app, lookup_total_app_l by exact Hrc. simpl.
    repeat split; lia || reflexivity.
  - apply foundColumn_in_scope in Hfound as [Hin _].
    rewrite Forall_forall in Hscope. specialize (Hscope r Hin).
    rewrite linked_length, linked_type_of_referenced.
    rewrite linked_self by exact Hscope.
    rewrite linkedColumn_link, linkedColumn_type. auto.
Qed.

(** ** Well-formed heaps stay well-formed *)

Lemma lookup_total_Forall {A} `{!Inhabited A} (P : A → Prop) (l : list A) i :
  Forall P l → P inhabitant → P (l !!! i).
Proof.
  intros Hall Hdefault. rewrite list_lookup_total_alt.
  destruct (l !! i) as [x|] eqn:E; [|exact Hdefault].
  simpl. eapply Forall_lookup_1; eauto.
Qed.

Lemma relationalColumnsOf_valid h relation :
  wellFormed h →
  Forall (fun r => r < length (Heap.columns h)) (relationalColumnsOf h relation).
Proof.
  intros [Hent Hemb]. unfold relationalColumnsOf, ownerOf.
  destruct (RelationMetadata.embeddedMetadata relation) as [e|].
  - apply (lookup_total_Forall
             (fun e => Forall (fun r => r < length (Heap.columns h))
                              (EmbeddedMetadata.columns e)));
      [exact Hemb | constructor].
  - apply (lookup_total_Forall
             (fun e => Forall (fun r => r < length (Heap.columns h))
                              (EntityMetadata.ownColumns e)));
      [|constructor].
    eapply Forall_impl; [exact Hent|]. intros e [Hown _]. exact Hown.
Qed.

Lemma wellFormed_grow (columns : list ColumnMetadata.t) h :
  length (Heap.columns h) ≤ length columns →
  wellFormed h → wellFormed (withColumns columns h).
Proof.
  intros Hle [Hent Hemb]. split; simpl.
  - eapply Forall_impl; [exact Hent|]. intros e [Hown Hprim].
    split; (eapply Forall_impl; [eassumption|]); simpl; intros; lia.
  - eapply Forall_impl; [exact Hemb|]. intros e He.
    eapply Forall_impl; [exact He|]. simpl; intros; lia.
Qed.

Lemma wellFormed_linked connection relation referencedColumn r h :
  wellFormed h → wellFormed (linked connection relation referencedColumn r h).
Proof.
  intros Hwf. apply wellFormed_grow; [|exact Hwf]. rewrite length_insert. lia.
Qed.

Lemma wellFormed_cloned original h :
  wellFormed h → wellFormed (cloned original h).
Proof.
  intros Hwf.
  apply (wellFormed_grow (Heap.columns h ++ [Heap.columns h !!! original])) in Hwf;
    [|rewrite length_app; lia].
  exact Hwf.
Qed.

Lemma wellFormed_created relation options h :
  wellFormed h → wellFormed (created relation options h).
Proof.
  intros Hwf.
  unfold created.
  match goal with |- wellFormed (Heap.mk (_ ++ [?new]) _ _ _) =>
    apply (wellFormed_grow (Heap.columns h ++ [new])) in Hwf;
      [|rewrite length_app; lia]
  end.
  destruct Hwf as [Hent Hemb]. simpl in Hent, Hemb.
  split; simpl; [|exact Hemb].
  destruct (existsb _ _); [exact Hent|].
  apply Forall_insert; [exact Hent|]. simpl.
  pose proof (lookup_total_Forall _ _ (RelationMetadata.entityMetadata relation) Hent) as He.
  simpl in He. destruct He as [Hown Hprim]; [split; constructor|].
  split; [|exact Hprim].
  apply Forall_app. split; [exact Hown|].
  constructor; [|constructor]. rewrite length_app. simpl. lia.
Qed.

Lemma wellFormed_resolved connection joinColumns relation referencedColumn h :
  wellFormed h →
  wellFormed (snd (resolved connection joinColumns relation referencedColumn h)).
Proof.
  intros Hwf.
  destruct (resolved_cases connection joinColumns relation referencedColumn h)
    as [[_ ->]|[(r0 & _ & _ & ->)|(r & _ & _ & ->)]]; cbn [snd];
    apply wellFormed_linked;
    [apply wellFormed_created | apply wellFormed_cloned |]; exact Hwf.
Qed.

Lemma resolvedAll_grows connection joinColumns relation referencedColumns h :
  length (Heap.columns h)
  ≤ length (Heap.columns
              (snd (resolvedAll connection joinColumns relation referencedColumns h))).
Proof.
  revert h. induction referencedColumns as [|rc rest IH]; intros h; [reflexivity|].
  simpl. pose proof (resolved_length connection joinColumns relation rc h) as Hstep.
  destruct (resolved _ _ _ _ _) as [r h1]. specialize (IH h1).
  destruct (resolvedAll _ _ _ _ _) as [rs h2]. simpl in *. lia.
Qed.

Lemma wellFormed_resolvedAll connection joinColumns relation referencedColumns h :
  wellFormed h →
  wellFormed (snd (resolvedAll connection joinColumns relation referencedColumns h)).
Proof.
  revert h. induction referencedColumns as [|rc rest IH]; intros h Hwf; [exact Hwf|].
  simpl. pose proof (wellFormed_resolved connection joinColumns relation rc h Hwf) as Hstep.
  destruct (resolved _ _ _ _ _) as [r h1]. specialize (IH h1 Hstep).
  destruct (resolvedAll _ _ _ _ _) as [rs h2]. exact IH.
Qed.

(** Every returned column is allocated and linked to the referenced column
    at its position, also after the later columns were resolved. *)
Lemma resolvedAll_links connection joinColumns relation referencedColumns h :
  wellFormed h →
  Forall (fun rc => rc < length (Heap.columns h)) referencedColumns →
  Forall2
    (fun r rc =>
       ColumnMetadata.referencedColumn
         (Heap.columns
            (snd (resolvedAll connection joinColumns relation referencedColumns h))
            !!! r)
       = Some rc)
    (fst (resolvedAll connection joinColumns relation referencedColumns h))
    referencedColumns.
Proof.
  revert h. induction referencedColumns as [|rc rest IH]; intros h Hwf Hvalid.
  - constructor.
  - inversion Hvalid as [|? ? Hrc Hrest]; subst. simpl.
    pose proof (resolved_link connection joinColumns relation rc h
                  (relationalColumnsOf_valid h relation Hwf) Hrc) as (_ & Hlink & _).
    pose proof (wellFormed_resolved connection joinColumns relation rc h Hwf) as Hwf1.
    pose proof (resolved_length connection joinColumns relation rc h) as Hlen.
    destruct (resolved _ _ _ _ _) as [r h1]. cbn [fst snd] in *.
    assert (Forall (fun rc => rc < length (Heap.columns h1)) rest) as Hrest1.
    { eapply Forall_impl; [exact Hrest|]. simpl; intros; lia. }
    specialize (IH h1 Hwf1 Hrest1).
    pose proof (resolvedAll_frame connection joinColumns relation rest h1 r) as Hframe.
    destruct (resolvedAll _ _ _ _ _) as [rs h2]. cbn [fst snd] in *.
    constructor; [|exact IH].
    rewrite Hframe by (rewrite Hlink; eauto). exact Hlink.
Qed.

(** ** The registry of the owning entity *)

Lemma extends_refl relation h : extends relation h h [].
Proof.
  unfold extends. rewrite !app_nil_r, Nat.sub_diag. simpl.
  repeat split; auto.
Qed.

Lemma extends_trans relation h h1 h2 new1 new2 :
  extends relation h h1 new1 → extends relation h1 h2 new2 →
  extends relation h h2 (new1 ++ new2).
Proof.
  intros (Ha1 & Hl1 & Hs1 & Hc1 & Ho1 & He1 & Hm1 & Hn1)
         (Ha2 & Hl2 & Hs2 & Hc2 & Ho2 & He2 & Hm2 & Hn2).
  unfold extends, allocatedColumns, constructedColumns in *.
  rewrite !omap_app.
  repeat split.
  - rewrite Ha2, Ha1, app_assoc. reflexivity.
  - lia.
  - rewrite Hs1, Hs2.
    replace (length (Heap.columns h2) - length (Heap.columns h))
      with ((length (Heap.columns h1) - length (Heap.columns h))
            + (length (Heap.columns h2) - length (Heap.columns h1))) by lia.
    rewrite seq_app. f_equal. f_equal. lia.
  - apply Forall_app. auto.
  - rewrite Ho2, Ho1, app_assoc. reflexivity.
  - intros e Hne. rewrite He2, He1 by exact Hne. reflexivity.
  - congruence.
  - congruence.
Qed.

Lemma fresh_not_registered (own : list ref) fresh :
  Forall (fun r => r < fresh) own → existsb (Nat.eqb fresh) own = false.
Proof.
  intros Hall. induction Hall as [|r own Hr _ IH]; [reflexivity|].
  simpl. rewrite IH, orb_false_r. apply Nat.eqb_neq. lia.
Qed.

Lemma ownColumns_valid h e :
  wellFormed h →
  Forall (fun r => r < length (Heap.columns h))
         (EntityMetadata.ownColumns (Heap.entities h !!! e)).
Proof.
  intros [Hent _].
  apply (lookup_total_Forall
           (fun e => Forall (fun r => r < length (Heap.columns h))
                            (EntityMetadata.ownColumns e)));
    [|constructor].
  eapply Forall_impl; [exact Hent|]. intros ? [Hown _]. exact Hown.
Qed.

Lemma resolved_extends connection joinColumns relation referencedColumn h :
  wellFormed h →
  RelationMetadata.entityMetadata relation < length (Heap.entities h) →
  ∃ new,
    extends relation h
      (snd (resolved connection joinColumns relation referencedColumn h)) new.
Proof.
  intros Hwf Howner.
  destruct (resolved_cases connection joinColumns relation referencedColumn h)
    as [[_ ->]|[(r0 & _ & _ & ->)|(r & _ & _ & ->)]]; cbn [snd].
  - exists [NewColumnMetadata (length (Heap.columns h))].
    unfold extends, ownerOf. simpl.
    rewrite fresh_not_registered by apply ownColumns_valid, Hwf.
    rewrite length_insert, length_app. simpl.
    rewrite list_lookup_total_insert_eq by exact Howner.
    replace (length (Heap.columns h) + 1 - length (Heap.columns h)) with 1 by lia.
    repeat split; auto; try lia.
    + repeat constructor.
    + intros e Hne. apply list_lookup_total_insert_ne. congruence.
    + apply length_insert.
  - exists [ClonedColumnMetadata r0 (length (Heap.columns h))].
    unfold extends, ownerOf. simpl.
    rewrite length_insert, length_app, app_nil_r. simpl.
    replace (length (Heap.columns h) + 1 - length (Heap.columns h)) with 1 by lia.
    repeat split; auto; try lia. repeat constructor.
  - exists []. unfold extends, ownerOf. simpl.
    rewrite length_insert, !app_nil_r, Nat.sub_diag.
    repeat split; auto.
Qed.


Lemma resolvedAll_extends connection joinColumns relation referencedColumns h :
  wellFormed h →
  RelationMetadata.entityMetadata relation < length (Heap.entities h) →
  ∃ new,
    extends relation h
      (snd (resolvedAll connection joinColumns relation referencedColumns h)) new.
Proof.
  revert h. induction referencedColumns as [|rc rest IH]; intros h Hwf Howner.
  - exists []. apply extends_refl.
  - simpl.
    destruct (resolved_extends connection joinColumns relation rc h Hwf Howner)
      as [new1 H1].
    pose proof (wellFormed_resolved connection joinColumns relation rc h Hwf) as Hwf1.
    destruct (resolved _ _ _ _ _) as [r h1]. cbn [snd] in *.
    destruct (IH h1 Hwf1) as [new2 H2].
    { destruct H1 as (_ & _ & _ & _ & _ & _ & _ & ->). exact Howner. }
    destruct (resolvedAll _ _ _ _ _) as [rs h2]. cbn [snd] in *.
    exists (new1 ++ new2). eapply extends_trans; eauto.
Qed.

(** ** Running [build] *)

Lemma databaseNames_run (columns : list ref) h :
  mapM (fun column => ColumnMetadata.databaseName <$> readColumn column) columns h
  = (Returned (map (fun r => ColumnMetadata.databaseName (Heap.columns h !!! r))
                   columns), h).
Proof.
  induction columns as [|r rest IH]; [reflexivity|].
  rewrite mapM_cons_run, fmap_run. cbn [readColumn]. rewrite IH. reflexivity.
Qed.

Lemma build_run connection joinColumns relation h referencedColumns :
  collectReferencedColumns joinColumns relation h = (Returned referencedColumns, h) →
  let columns :=
    fst (resolvedAll connection joinColumns relation referencedColumns h) in
  let h1 := snd (resolvedAll connection joinColumns relation referencedColumns h) in
  let foreignKey := foreignKeyOf joinColumns relation columns referencedColumns in
  build connection joinColumns relation h
  = if Nat.eqb (length referencedColumns) 0
       || negb (RelationMetadata.createForeignKeyConstraints relation)
    then (Returned (BuildResult.mk None columns None), h1)
    else if skipsUniqueConstraint relation columns h1
    then (Returned (BuildResult.mk (Some foreignKey) columns None),
          recorded NewForeignKeyMetadata h1)
    else (Returned (BuildResult.mk (Some foreignKey) columns
                      (Some (uniqueConstraintOf connection relation columns h1))),
          recorded NewUniqueMetadata (recorded NewForeignKeyMetadata h1)).
Proof.
  intros Hrefs. cbv zeta. unfold build.
  rewrite bind_run, Hrefs, bind_run, collectColumns_run.
  destruct (_ || _); [reflexivity|].
  unfold new_ForeignKeyMetadata. run.
  fold (foreignKeyOf joinColumns relation
          (fst (resolvedAll connection joinColumns relation referencedColumns h))
          referencedColumns).
  unfold skipsUniqueConstraint.
  destruct (_ || _); [reflexivity|].
  run. rewrite databaseNames_run. unfold new_UniqueMetadata. run. reflexivity.
Qed.

(** ** Constructor calls of the loop *)

Lemma resolved_allocations connection joinColumns relation referencedColumn h :
  ∃ new,
    Heap.allocations (snd (resolved connection joinColumns relation referencedColumn h))
    = Heap.allocations h ++ new
    ∧ Forall allocatesColumn new.
Proof.
  destruct (resolved_cases connection joinColumns relation referencedColumn h)
    as [[_ ->]|[(r0 & _ & _ & ->)|(r & _ & _ & ->)]]; cbn [snd]; simpl.
  - eexists. split; [reflexivity|]. repeat constructor.
  - eexists. split; [reflexivity|]. repeat constructor.
  - exists []. rewrite app_nil_r. split; [reflexivity | constructor].
Qed.

Lemma resolvedAll_allocations connection joinColumns relation referencedColumns h :
  ∃ new,
    Heap.allocations
      (snd (resolvedAll connection joinColumns relation referencedColumns h))
    = Heap.allocations h ++ new
    ∧ Forall allocatesColumn new.
Proof.
  revert h. induction referencedColumns as [|rc rest IH]; intros h.
  - exists []. rewrite app_nil_r. split; [reflexivity | constructor].
  - simpl.
    destruct (resolved_allocations connection joinColumns relation rc h)
      as (new1 & Ha1 & Hc1).
    destruct (resolved _ _ _ _ _) as [r h1]. cbn [snd] in *.
    destruct (IH h1) as (new2 & Ha2 & Hc2).
    destruct (resolvedAll _ _ _ _ _) as [rs h2]. cbn [snd] in *.
    exists (new1 ++ new2). split.
    + rewrite Ha2, Ha1, app_assoc. reflexivity.
    + apply Forall_app. auto.
Qed.

Lemma allocatesColumn_not_constraint new :
  Forall allocatesColumn new →
  (NewForeignKeyMetadata ∉ new) ∧ (NewUniqueMetadata ∉ new).
Proof.
  intros Hall. rewrite Forall_forall in Hall.
  split; intros Hin; exact (Hall _ Hin).
Qed.

(** C8. If the referenced-column list is empty or the relation's
    createForeignKeyConstraints flag is false, [build] returns the columns
    of [collectColumns] (none when there is no referenced column) with no
    foreign key and no unique constraint, and neither constructor is called. *)
Theorem build_without_foreign_key connection joinColumns relation h
    referencedColumns :
  collectReferencedColumns joinColumns relation h
  = (Returned referencedColumns, h) →
  referencedColumns = []
  ∨ RelationMetadata.createForeignKeyConstraints relation = false →
  ∃ columns h' new,
    build connection joinColumns relation h
    = (Returned (BuildResult.mk None columns None), h')
    ∧ collectColumns connection joinColumns relation referencedColumns h
      = (Returned columns, h')
    ∧ length columns = length referencedColumns
    ∧ (referencedColumns = [] → columns = [] ∧ h' = h)
    ∧ Heap.allocations h' = Heap.allocations h ++ new
    ∧ (NewForeignKeyMetadata ∉ new)
    ∧ (NewUniqueMetadata ∉ new).
Proof.
  intros Hrefs Hcase.
  destruct (resolvedAll_allocations connection joinColumns relation
              referencedColumns h) as (new & Hnew & Hcolumns).
  exists (fst (resolvedAll connection joinColumns relation referencedColumns h)),
         (snd (resolvedAll connection joinColumns relation referencedColumns h)),
         new.
  split.
  { rewrite (build_run _ _ _ _ _ Hrefs).
    destruct Hcase as [-> | ->]; [reflexivity|].
    rewrite orb_true_r. reflexivity. }
  split; [apply collectColumns_run|].
  split; [apply resolvedAll_length|].
  split; [intros ->; split; reflexivity|].
  split; [exact Hnew|].
  apply allocatesColumn_not_constraint, Hcolumns.
Qed.

Lemma build_Returned connection joinColumns relation h result h' :
  build connection joinColumns relation h = (Returned result, h') →
  ∃ referencedColumns,
    collectReferencedColumns joinColumns relation h
    = (Returned referencedColumns, h).
Proof.
  intros Hbuild.
  destruct (collectReferencedColumns joinColumns relation h) as [[rcs|e] h0] eqn:Hrefs.
  - pose proof (collectReferencedColumns_heap _ _ _ _ _ Hrefs) as ->. eauto.
  - unfold build in Hbuild. rewrite bind_run, Hrefs in Hbuild. discriminate.
Qed.

Lemma forallb_true_Forall {A} (f : A → bool) (l : list A) :
  forallb f l = true ↔ Forall (fun x => f x = true) l.
Proof.
  induction l as [|x l IH]; simpl.
  - split; auto.
  - rewrite andb_true_iff, IH. split.
    + intros [? ?]. constructor; assumption.
    + intros H. inversion H; auto.
Qed.

(** C6. When [build] produces a foreign key, no unique constraint is
    returned exactly when every materialized column is primary or the
    relation is not one-to-one; otherwise the unique constraint is over the
    foreign key's columns and is named by the naming strategy's
    relationConstraintName from the owning table name and the columns'
    database names. *)
Theorem unique_constraint_gating connection joinColumns relation h result h'
    foreignKey :
  build connection joinColumns relation h = (Returned result, h') →
  BuildResult.foreignKey result = Some foreignKey →
  ForeignKeyMetadata.columns foreignKey = BuildResult.columns result
  ∧ (BuildResult.uniqueConstraint result = None
     ↔ Forall (fun r => ColumnMetadata.isPrimary (Heap.columns h' !!! r) = true)
              (BuildResult.columns result)
       ∨ RelationMetadata.isOneToOne relation = false)
  ∧ ∀ uniqueConstraint,
      BuildResult.uniqueConstraint result = Some uniqueConstraint →
      UniqueMetadata.columns uniqueConstraint
      = ForeignKeyMetadata.columns foreignKey
      ∧ UniqueMetadata.entityMetadata uniqueConstraint
        = RelationMetadata.entityMetadata relation
      ∧ UniqueMetadata.givenName uniqueConstraint
        = NamingStrategy.relationConstraintName
            (DataSource.namingStrategy connection)
            (EntityMetadata.tableName (ownerOf h' relation))
            (map (fun r => ColumnMetadata.databaseName (Heap.columns h' !!! r))
                 (ForeignKeyMetadata.columns foreignKey)).
Proof.
  intros Hbuild Hfk.
  destruct (build_Returned _ _ _ _ _ _ Hbuild) as [rcs Hrefs].
  rewrite (build_run _ _ _ _ _ Hrefs) in Hbuild.
  destruct (_ || _).
  { injection Hbuild as <- <-. discriminate Hfk. }
  unfold skipsUniqueConstraint in Hbuild.
  destruct (forallb _ _) eqn:Hprimary;
    [|destruct (RelationMetadata.isOneToOne relation) eqn:Hone];
    cbn [orb negb] in Hbuild; injection Hbuild as <- <-;
    cbn [BuildResult.foreignKey BuildResult.columns BuildResult.uniqueConstraint]
      in *; injection Hfk as <-; (split; [reflexivity|]); split.
  - split; [|reflexivity]. intros _. left.
    apply forallb_true_Forall in Hprimary. exact Hprimary.
  - discriminate.
  - split; [discriminate|]. intros [Hall|Hone']; [|discriminate].
    apply forallb_true_Forall in Hall. simpl in Hall. congruence.
  - intros u [= <-]. auto.
  - split; [|reflexivity]. intros _. right. reflexivity.
  - discriminate.
Qed.

(** ** The length of a new column *)

Lemma truthyString_false s : truthyString s = false ↔ s = ""%string.
Proof.
  unfold truthyString. rewrite negb_false_iff. apply String.eqb_eq.
Qed.

Lemma isUuidStrategy_true g : isUuidStrategy g = true ↔ g = Some uuid.
Proof.
  destruct g as [[]|]; simpl; split; congruence.
Qed.

Lemma joinColumnOptions_length connection relation name referencedColumn :
  (needsUuidLength connection referencedColumn
   ∧ ColumnOptions.length
       (joinColumnOptions connection relation name referencedColumn)
     = "36"%string)
  ∨ (¬ needsUuidLength connection referencedColumn
     ∧ ColumnOptions.length
         (joinColumnOptions connection relation name referencedColumn)
       = ColumnMetadata.length referencedColumn).
Proof.
  unfold joinColumnOptions, needsUuidLength, mySQLCompatible.
  cbn [ColumnOptions.length].
  destruct (truthyString (ColumnMetadata.length referencedColumn)) eqn:Hlen;
    cbn [negb andb].
  { right. split; [|reflexivity]. intros (Hempty & _).
    apply truthyString_false in Hempty. congruence. }
  apply truthyString_false in Hlen.
  destruct (Driver.isMySQLFamily (DataSource.driver connection)
            || String.eqb (Driver.options_type (DataSource.driver connection))
                          "aurora-mysql") eqn:Hmysql; cbn [andb].
  2:{ right. split; [|reflexivity]. intros (_ & ? & _). discriminate. }
  destruct (String.eqb
              (Driver.normalizeType (DataSource.driver connection) referencedColumn)
              "uuid") eqn:Hnorm; cbn [negb andb].
  { right. split; [|reflexivity]. intros (_ & _ & Hne & _).
    apply String.eqb_eq in Hnorm. contradiction. }
  apply String.eqb_neq in Hnorm.
  destruct (isUuidStrategy (ColumnMetadata.generationStrategy referencedColumn)
            || String.eqb (ColumnMetadata.type referencedColumn) "uuid")
    eqn:Huuid.
  - left. split; [|reflexivity]. repeat split; auto.
    apply orb_true_iff in Huuid as [H|H].
    + left. apply isUuidStrategy_true, H.
    + right. apply String.eqb_eq, H.
  - right. split; [|reflexivity]. intros (_ & _ & _ & [H|H]).
    + apply isUuidStrategy_true in H. rewrite H in Huuid. discriminate.
    + apply String.eqb_eq in H. rewrite H, orb_true_r in Huuid. discriminate.
Qed.

Lemma created_fresh relation options h :
  Heap.columns (created relation options h) !!! length (Heap.columns h)
  = ColumnMetadata.mk ""%string (RelationMetadata.entityMetadata relation)
      (RelationMetadata.embeddedMetadata relation) None
      (RelationMetadata.propertyName relation)
      (if truthy (ColumnOptions.name options)
       then ColumnOptions.name options else None)
      ""%string ""%string
      (ColumnOptions.type options) (ColumnOptions.length options)
      (ColumnOptions.width options) (ColumnOptions.charset options)
      (ColumnOptions.collation options) (ColumnOptions.precision options)
      (ColumnOptions.scale options) (ColumnOptions.zerofill options)
      (ColumnOptions.unsigned options) (ColumnOptions.comment options)
      (ColumnOptions.enum options) (ColumnOptions.enumName options)
      (ColumnOptions.primary options) (ColumnOptions.nullable options)
      true None None.
Proof.
  simpl. rewrite lookup_total_app_r by lia. rewrite Nat.sub_diag. reflexivity.
Qed.

Lemma created_length relation options h :
  length (Heap.columns (created relation options h))
  = S (length (Heap.columns h)).
Proof. simpl. rewrite length_app. simpl. lia. Qed.

Lemma cloned_fresh original h :
  Heap.columns (cloned original h) !!! length (Heap.columns h)
  = Heap.columns h !!! original.
Proof.
  simpl. rewrite lookup_total_app_r by lia. rewrite Nat.sub_diag. reflexivity.
Qed.

Lemma cloned_length original h :
  length (Heap.columns (cloned original h)) = S (length (Heap.columns h)).
Proof. simpl. rewrite length_app. simpl. lia. Qed.

(** C7. The length of a newly created virtual column is "36" when the
    referenced column has no length, the driver is MySQL-compatible, the
    driver's normalized type of the referenced column is not "uuid" and the
    referenced column is generated as uuid or typed "uuid"; in every other
    case it is the referenced column's length. *)
Theorem new_column_length connection joinColumns relation referencedColumn h :
  foundColumn connection joinColumns relation referencedColumn h = None →
  ∃ r h',
    collectColumn connection joinColumns relation referencedColumn h
    = (Returned r, h')
    ∧ NewColumnMetadata r ∈ Heap.allocations h'
    ∧ ((needsUuidLength connection (Heap.columns h !!! referencedColumn)
        ∧ ColumnMetadata.length (Heap.columns h' !!! r) = "36"%string)
       ∨ (¬ needsUuidLength connection (Heap.columns h !!! referencedColumn)
          ∧ ColumnMetadata.length (Heap.columns h' !!! r)
            = ColumnMetadata.length (Heap.columns h !!! referencedColumn))).
Proof.
  intros Hnone. rewrite collectColumn_run.
  destruct (resolved_cases connection joinColumns relation referencedColumn h)
    as [[_ Hr]|[(r0 & Hsome & _)|(r0 & Hsome & _)]]; try congruence.
  rewrite Hr. cbn [fst snd]. eexists _, _. split; [reflexivity|]. split.
  { simpl. apply elem_of_app. right. left. }
  rewrite linked_self by (rewrite created_length; lia).
  unfold linkedColumn. cbn [ColumnMetadata.length ColumnMetadata.set_databaseNames
    ColumnMetadata.set_relationMetadata ColumnMetadata.set_type
    ColumnMetadata.set_referencedColumn].
  rewrite created_fresh. cbn [ColumnMetadata.length].
  apply joinColumnOptions_length.
Qed.

(** ** The name of a join column *)

Lemma namesJoinColumnOf_true referencedColumn joinColumn :
  (negb (truthy (JoinColumnMetadataArgs.referencedColumnName joinColumn))
   || strictEq (ColumnMetadata.propertyName referencedColumn)
               (JoinColumnMetadataArgs.referencedColumnName joinColumn))
  && truthy (JoinColumnMetadataArgs.name joinColumn) = true
  ↔ namesJoinColumnOf referencedColumn joinColumn.
Proof.
  unfold namesJoinColumnOf.
  rewrite andb_true_iff, orb_true_iff, negb_true_iff, strictEq_true.
  reflexivity.
Qed.

Lemma namesJoinColumnOf_false referencedColumn joinColumn :
  (negb (truthy (JoinColumnMetadataArgs.referencedColumnName joinColumn))
   || strictEq (ColumnMetadata.propertyName referencedColumn)
               (JoinColumnMetadataArgs.referencedColumnName joinColumn))
  && truthy (JoinColumnMetadataArgs.name joinColumn) = false
  ↔ ¬ namesJoinColumnOf referencedColumn joinColumn.
Proof.
  rewrite <- namesJoinColumnOf_true. destruct (_ && _); split; congruence.
Qed.

Lemma joinColumnNameFor_first_match connection joinColumns relation rc :
  (∃ before j after,
     joinColumns = before ++ j :: after
     ∧ Forall (fun j' => ¬ namesJoinColumnOf rc j') before
     ∧ namesJoinColumnOf rc j
     ∧ joinColumnNameFor connection joinColumns relation rc
       = JoinColumnMetadataArgs.name j)
  ∨ (Forall (fun j => ¬ namesJoinColumnOf rc j) joinColumns
     ∧ joinColumnNameFor connection joinColumns relation rc
       = Some (NamingStrategy.joinColumnName
                 (DataSource.namingStrategy connection)
                 (RelationMetadata.propertyName relation)
                 (ColumnMetadata.propertyName rc))).
Proof.
  unfold joinColumnNameFor.
  destruct (List.find _ joinColumns) as [j|] eqn:Hfind.
  - left. apply find_Some_first in Hfind as (before & after & -> & Hj & Hbefore).
    exists before, j, after. split; [reflexivity|]. split.
    + eapply Forall_impl; [exact Hbefore|]. intros j'. apply namesJoinColumnOf_false.
    + split; [apply namesJoinColumnOf_true, Hj | reflexivity].
  - right. split; [|reflexivity]. apply find_None_all in Hfind.
    eapply Forall_impl; [exact Hfind|]. intros j. apply namesJoinColumnOf_false.
Qed.

Lemma joinColumnNameFor_truthy connection joinColumns relation rc :
  truthyString
    (NamingStrategy.joinColumnName (DataSource.namingStrategy connection)
       (RelationMetadata.propertyName relation) (ColumnMetadata.propertyName rc))
  = true →
  truthy (joinColumnNameFor connection joinColumns relation rc) = true.
Proof.
  intros Hdefault.
  destruct (joinColumnNameFor_first_match connection joinColumns relation rc)
    as [(before & j & after & _ & _ & [_ Hj] & ->)|[_ ->]];
    [exact Hj | exact Hdefault].
Qed.

(** The names the build step leaves on the relational column. *)
Lemma linked_names connection relation referencedColumn r h :
  r < length (Heap.columns h) →
  let c := Heap.columns (linked connection relation referencedColumn r h) !!! r in
  ColumnMetadata.propertyName c = ColumnMetadata.propertyName (Heap.columns h !!! r)
  ∧ ColumnMetadata.givenDatabaseName c
    = ColumnMetadata.givenDatabaseName (Heap.columns h !!! r)
  ∧ ColumnMetadata.embeddedMetadata c
    = ColumnMetadata.embeddedMetadata (Heap.columns h !!! r)
  ∧ ColumnMetadata.databaseNameWithoutPrefixes c
    = NamingStrategy.columnName (DataSource.namingStrategy connection)
        (ColumnMetadata.propertyName c) (ColumnMetadata.givenDatabaseName c) []
  ∧ ColumnMetadata.databaseName c
    = NamingStrategy.columnName (DataSource.namingStrategy connection)
        (ColumnMetadata.propertyName c) (ColumnMetadata.givenDatabaseName c)
        (prefixesOf (linked connection relation referencedColumn r h) c).
Proof.
  intros Hlt. cbv zeta. rewrite linked_self by exact Hlt.
  repeat split.
Qed.

(** C3, as the code has it. The name computed for the join column of a
    referenced column is the name of the first spec whose
    referenced-property name is unset or is the column's property name and
    whose name is set, and without such a spec the naming strategy's
    joinColumnName of the relation's property name and the column's property
    name. With a naming strategy that keeps given column names, in a scope of
    built columns, the column that is returned has this name as its database
    name without prefixes; its database name is the naming strategy's column
    name under the prefixes of its embedded, and is the computed name when
    the column is not embedded. *)
Theorem join_column_physical_name connection joinColumns relation
    referencedColumn h :
  wellFormed h →
  keepsGivenNames connection →
  Forall (fun r => builtWith connection (Heap.columns h !!! r))
         (relationalColumnsOf h relation) →
  truthyString
    (NamingStrategy.joinColumnName (DataSource.namingStrategy connection)
       (RelationMetadata.propertyName relation)
       (ColumnMetadata.propertyName (Heap.columns h !!! referencedColumn)))
  = true →
  let rc := Heap.columns h !!! referencedColumn in
  let name := joinColumnNameFor connection joinColumns relation rc in
  ((∃ before j after,
      joinColumns = before ++ j :: after
      ∧ Forall (fun j' => ¬ namesJoinColumnOf rc j') before
      ∧ namesJoinColumnOf rc j
      ∧ name = JoinColumnMetadataArgs.name j)
   ∨ (Forall (fun j => ¬ namesJoinColumnOf rc j) joinColumns
      ∧ name
        = Some (NamingStrategy.joinColumnName
                  (DataSource.namingStrategy connection)
                  (RelationMetadata.propertyName relation)
                  (ColumnMetadata.propertyName rc))))
  ∧ ∃ r h',
      collectColumn connection joinColumns relation referencedColumn h
      = (Returned r, h')
      ∧ Some (ColumnMetadata.databaseNameWithoutPrefixes (Heap.columns h' !!! r))
        = name
      ∧ ColumnMetadata.databaseName (Heap.columns h' !!! r)
        = NamingStrategy.columnName (DataSource.namingStrategy connection)
            (ColumnMetadata.propertyName (Heap.columns h' !!! r))
            (ColumnMetadata.givenDatabaseName (Heap.columns h' !!! r))
            (prefixesOf h' (Heap.columns h' !!! r))
      ∧ (ColumnMetadata.embeddedMetadata (Heap.columns h' !!! r) = None →
         Some (ColumnMetadata.databaseName (Heap.columns h' !!! r)) = name).
Proof.
  intros Hwf Hkeeps Hbuilt Hdefault. cbv zeta.
  split; [apply joinColumnNameFor_first_match|].
  pose proof (joinColumnNameFor_truthy connection joinColumns relation
                (Heap.columns h !!! referencedColumn) Hdefault) as Htruthy.
  pose proof (relationalColumnsOf_valid h relation Hwf) as Hvalid.
  rewrite collectColumn_run.
  assert (∀ h1 r,
            r < length (Heap.columns h1) →
            NamingStrategy.columnName (DataSource.namingStrategy connection)
              (ColumnMetadata.propertyName (Heap.columns h1 !!! r))
              (ColumnMetadata.givenDatabaseName (Heap.columns h1 !!! r)) []
            = default ""%string
                (joinColumnNameFor connection joinColumns relation
                   (Heap.columns h !!! referencedColumn)) →
            let h' := linked connection relation referencedColumn r h1 in
            Some (ColumnMetadata.databaseNameWithoutPrefixes (Heap.columns h' !!! r))
            = joinColumnNameFor connection joinColumns relation
                (Heap.columns h !!! referencedColumn)
            ∧ ColumnMetadata.databaseName (Heap.columns h' !!! r)
              = NamingStrategy.columnName (DataSource.namingStrategy connection)
                  (ColumnMetadata.propertyName (Heap.columns h' !!! r))
                  (ColumnMetadata.givenDatabaseName (Heap.columns h' !!! r))
                  (prefixesOf h' (Heap.columns h' !!! r))
            ∧ (ColumnMetadata.embeddedMetadata (Heap.columns h' !!! r) = None →
               Some (ColumnMetadata.databaseName (Heap.columns h' !!! r))
               = joinColumnNameFor connection joinColumns relation
                   (Heap.columns h !!! referencedColumn))) as Hnames.
  { intros h1 r Hlt Hname. cbv zeta.
    destruct (linked_names connection relation referencedColumn r h1 Hlt)
      as (Hp & Hg & He & Hshort & Hfull).
    assert (Some (ColumnMetadata.databaseNameWithoutPrefixes
                    (Heap.columns (linked connection relation referencedColumn r h1)
                       !!! r))
            = joinColumnNameFor connection joinColumns relation
                (Heap.columns h !!! referencedColumn)) as Hwo.
    { rewrite Hshort, Hp, Hg, Hname.
      destruct (joinColumnNameFor _ _ _ _); [reflexivity | discriminate Htruthy]. }
    split; [exact Hwo|]. split; [exact Hfull|].
    intros Hnone. rewrite Hfull. unfold prefixesOf. rewrite Hnone.
    rewrite <- Hshort. exact Hwo. }
  destruct (resolved_cases connection joinColumns relation referencedColumn h)
    as [[_ ->]|[(r0 & Hfound & _ & ->)|(r0 & Hfound & _ & ->)]]; cbn [fst snd];
    eexists _, _; (split; [reflexivity|]); apply Hnames.
  - rewrite created_length. lia.
  - rewrite created_fresh.
    cbn [ColumnMetadata.propertyName ColumnMetadata.givenDatabaseName
         joinColumnOptions ColumnOptions.name].
    rewrite Htruthy.
    destruct (joinColumnNameFor _ _ _ _) as [n|]; [|discriminate Htruthy].
    apply Hkeeps, Htruthy.
  - rewrite cloned_length. lia.
  - rewrite cloned_fresh.
    apply foundColumn_in_scope in Hfound as [Hin ->].
    rewrite Forall_forall in Hbuilt. exact (Hbuilt r0 Hin).
  - apply foundColumn_in_scope in Hfound as [Hin _].
    rewrite Forall_forall in Hvalid. exact (Hvalid r0 Hin).
  - apply foundColumn_in_scope in Hfound as [Hin ->].
    rewrite Forall_forall in Hbuilt. exact (Hbuilt r0 Hin).
Qed.

(** ** Shared columns *)

Lemma build_frame connection joinColumns relation h i :
  is_Some (ColumnMetadata.referencedColumn (Heap.columns h !!! i)) →
  Heap.columns (snd (build connection joinColumns relation h)) !!! i
  = Heap.columns h !!! i.
Proof.
  intros Hlink.
  destruct (collectReferencedColumns joinColumns relation h) as [[rcs|e] h0] eqn:Hrefs;
    pose proof (collectReferencedColumns_heap _ _ _ _ _ Hrefs) as ->.
  - rewrite (build_run _ _ _ _ _ Hrefs).
    destruct (_ || _); [|destruct (skipsUniqueConstraint _ _ _)]; cbn [snd];
      apply resolvedAll_frame, Hlink.
  - rewrite (build_Thrown _ _ _ _ _ Hrefs). reflexivity.
Qed.

(** C4. When the column found under the computed name already carries a
    referenced-column link, the callback links a clone: the column it
    returns is a fresh copy of the original, and the original is left as it
    was, by this resolution and by any later [build]. *)
Theorem shared_column_is_cloned connection joinColumns relation
    referencedColumn h original :
  foundColumn connection joinColumns relation referencedColumn h = Some original →
  is_Some (ColumnMetadata.referencedColumn (Heap.columns h !!! original)) →
  referencedColumn < length (Heap.columns h) →
  ∃ clone h',
    collectColumn connection joinColumns relation referencedColumn h
    = (Returned clone, h')
    ∧ clone ≠ original
    ∧ ClonedColumnMetadata original clone ∈ Heap.allocations h'
    ∧ Heap.columns h' !!! original = Heap.columns h !!! original
    ∧ ColumnMetadata.referencedColumn (Heap.columns h' !!! clone)
      = Some referencedColumn
    ∧ ColumnMetadata.type (Heap.columns h' !!! clone)
      = ColumnMetadata.type (Heap.columns h !!! referencedColumn)
    ∧ declaredAttributes (Heap.columns h' !!! clone)
      = declaredAttributes (Heap.columns h !!! original)
    ∧ ∀ connection' joinColumns' relation',
        Heap.columns (snd (build connection' joinColumns' relation' h')) !!! original
        = Heap.columns h !!! original.
Proof.
  intros Hfound Hlink Hrc.
  pose proof (linked_in_range h original Hlink) as Horiginal.
  pose proof (resolved_frame connection joinColumns relation referencedColumn h
                original Hlink) as Hframe.
  rewrite collectColumn_run.
  destruct (resolved_cases connection joinColumns relation referencedColumn h)
    as [[Hnone _]|[(r0 & Hsome & _ & Hr)|(r0 & Hsome & Hunlinked & _)]].
  - congruence.
  - assert (r0 = original) as -> by congruence.
    rewrite Hr in *. cbn [fst snd] in *.
    eexists _, _. split; [reflexivity|].
    split; [lia|].
    split; [simpl; apply elem_of_app; right; left|].
    split; [exact Hframe|].
    rewrite linked_self by (rewrite cloned_length; lia).
    split; [reflexivity|].
    split.
    { rewrite linkedColumn_type. simpl.
      rewrite lookup_total_app_l by exact Hrc. reflexivity. }
    split.
    { unfold linkedColumn. rewrite cloned_fresh. reflexivity. }
    intros connection' joinColumns' relation'.
    rewrite build_frame by (rewrite Hframe; exact Hlink). exact Hframe.
  - assert (r0 = original) as -> by congruence.
    rewrite Hunlinked in Hlink. destruct Hlink as [? ?]. discriminate.
Qed.

(** ** Constructed columns are registered once, clones are not registered *)

Lemma constructed_sublist new :
  constructedColumns new `sublist_of` allocatedColumns new.
Proof.
  induction new as [|a new IH]; [constructor|].
  destruct a; cbn; try assumption; constructor; assumption.
Qed.














(** ** The pairs of a foreign key *)

Lemma primaryColumns_valid h e :
  wellFormed h →
  Forall (fun r => r < length (Heap.columns h))
         (EntityMetadata.primaryColumns (Heap.entities h !!! e)).
Proof.
  intros [Hent _].
  apply (lookup_total_Forall
           (fun e => Forall (fun r => r < length (Heap.columns h))
                            (EntityMetadata.primaryColumns e)));
    [|constructor].
  eapply Forall_impl; [exact Hent|]. intros ? [_ Hprim]. exact Hprim.
Qed.

Lemma collectReferencedColumns_valid joinColumns relation h referencedColumns :
  wellFormed h →
  collectReferencedColumns joinColumns relation h
  = (Returned referencedColumns, h) →
  Forall (fun rc => rc < length (Heap.columns h)) referencedColumns.
Proof.
  intros Hwf Hrefs.
  destruct (collectReferencedColumns_Returned _ _ _ _ _ Hrefs) as [->|Hout].
  - apply primaryColumns_valid, Hwf.
  - apply Forall_forall. intros rc Hrc.
    apply list_elem_of_lookup in Hrc as [i Hi].
    destruct (Forall2_lookup_r _ _ _ _ _ Hout Hi)
      as (j & _ & before & after & Hown & _).
    pose proof (ownColumns_valid h (RelationMetadata.inverseEntityMetadata relation)
                  Hwf) as Hvalid.
    unfold targetOf in Hown. rewrite Hown in Hvalid.
    apply Forall_app in Hvalid as [_ Hvalid]. inversion Hvalid; assumption.
Qed.

(** X16. The columns and referenced columns of a foreign key have the same
    length, and each column carries the link to the referenced column at its
    position. *)
Lemma foreign_key_links connection joinColumns relation h result h' foreignKey :
  wellFormed h →
  build connection joinColumns relation h = (Returned result, h') →
  BuildResult.foreignKey result = Some foreignKey →
  length (ForeignKeyMetadata.columns foreignKey)
  = length (ForeignKeyMetadata.referencedColumns foreignKey)
  ∧ Forall2
      (fun r rc =>
         ColumnMetadata.referencedColumn (Heap.columns h' !!! r) = Some rc)
      (ForeignKeyMetadata.columns foreignKey)
      (ForeignKeyMetadata.referencedColumns foreignKey).
Proof.
  intros Hwf Hbuild Hfk.
  destruct (build_Returned _ _ _ _ _ _ Hbuild) as [rcs Hrefs].
  pose proof (collectReferencedColumns_valid _ _ _ _ Hwf Hrefs) as Hvalid.
  pose proof (resolvedAll_links connection joinColumns relation rcs h Hwf Hvalid)
    as Hlinks.
  rewrite (build_run _ _ _ _ _ Hrefs) in Hbuild.
  destruct (_ || _).
  { injection Hbuild as <- <-. discriminate Hfk. }
  destruct (skipsUniqueConstraint _ _ _); injection Hbuild as <- <-;
    injection Hfk as <-; cbn [ForeignKeyMetadata.columns
      ForeignKeyMetadata.referencedColumns foreignKeyOf];
    (split; [apply resolvedAll_length | exact Hlinks]).
Qed.

Lemma resolved_frame_outside connection joinColumns relation referencedColumn h i :
  i < length (Heap.columns h) →
  i ∉ relationalColumnsOf h relation →
  Heap.columns (snd (resolved connection joinColumns relation referencedColumn h)) !!! i
  = Heap.columns h !!! i.
Proof.
  intros Hlt Hout.
  destruct (resolved_cases connection joinColumns relation referencedColumn h)
    as [[_ ->]|[(r0 & _ & _ & ->)|(r & Hfound & _ & ->)]]; cbn [snd].
  - rewrite linked_other by lia. apply lookup_total_app_l. exact Hlt.
  - rewrite linked_other by lia. apply lookup_total_app_l. exact Hlt.
  - apply linked_other. intros ->.
    apply foundColumn_in_scope in Hfound as [Hin _]. contradiction.
Qed.

Lemma scope_extends relation h h' new i :
  extends relation h h' new →
  i < length (Heap.columns h) →
  i ∉ relationalColumnsOf h relation →
  i ∉ relationalColumnsOf h' relation.
Proof.
  intros (_ & _ & Hseq & _ & Hown & _ & Hemb & _) Hlt Hout.
  unfold relationalColumnsOf in *. rewrite Hemb.
  destruct (RelationMetadata.embeddedMetadata relation); [exact Hout|].
  rewrite Hown. intros Hin. apply elem_of_app in Hin as [Hin|Hin]; [contradiction|].
  pose proof (elem_of_sublist _ _ i Hin (constructed_sublist new)) as Hall.
  rewrite Hseq in Hall. apply elem_of_seq in Hall. lia.
Qed.

Lemma resolvedAll_frame_outside connection joinColumns relation referencedColumns h i :
  wellFormed h →
  RelationMetadata.entityMetadata relation < length (Heap.entities h) →
  i < length (Heap.columns h) →
  i ∉ relationalColumnsOf h relation →
  Heap.columns (snd (resolvedAll connection joinColumns relation referencedColumns h)) !!! i
  = Heap.columns h !!! i.
Proof.
  revert h. induction referencedColumns as [|rc rest IH];
    intros h Hwf Howner Hlt Hout; [reflexivity|].
  simpl.
  pose proof (resolved_frame_outside connection joinColumns relation rc h i Hlt Hout)
    as Hstep.
  destruct (resolved_extends connection joinColumns relation rc h Hwf Howner)
    as [new Hext].
  pose proof (scope_extends relation h _ new i Hext Hlt Hout) as Hout1.
  pose proof (wellFormed_resolved connection joinColumns relation rc h Hwf) as Hwf1.
  pose proof (resolved_length connection joinColumns relation rc h) as Hlen.
  destruct Hext as (_ & _ & _ & _ & _ & _ & _ & Hents).
  destruct (resolved _ _ _ _ _) as [r h1]. cbn [snd] in *.
  specialize (IH h1 Hwf1).
  destruct (resolvedAll _ _ _ _ _) as [rs h2]. cbn [snd] in *.
  rewrite IH; [exact Hstep | lia | lia | exact Hout1].
Qed.

(** When no referenced column lies in the column scope that is searched for
    existing join columns, every returned column has the type of the
    referenced column at its position. *)
Lemma resolvedAll_types connection joinColumns relation referencedColumns h :
  wellFormed h →
  RelationMetadata.entityMetadata relation < length (Heap.entities h) →
  Forall (fun rc => rc < length (Heap.columns h)
                    ∧ rc ∉ relationalColumnsOf h relation)
         referencedColumns →
  Forall2
    (fun r rc =>
       ColumnMetadata.type
         (Heap.columns
            (snd (resolvedAll connection joinColumns relation referencedColumns h))
            !!! r)
       = ColumnMetadata.type
           (Heap.columns
              (snd (resolvedAll connection joinColumns relation referencedColumns h))
              !!! rc))
    (fst (resolvedAll connection joinColumns relation referencedColumns h))
    referencedColumns.
Proof.
  revert h. induction referencedColumns as [|rc rest IH];
    intros h Hwf Howner Hvalid; [constructor|].
  inversion Hvalid as [|? ? [Hrc Hout] Hrest]; subst. simpl.
  pose proof (resolved_link connection joinColumns relation rc h
                (relationalColumnsOf_valid h relation Hwf) Hrc)
    as (_ & Hlink & Htype & _).
  pose proof (resolved_frame_outside connection joinColumns relation rc h rc Hrc Hout)
    as Hsame.
  destruct (resolved_extends connection joinColumns relation rc h Hwf Howner)
    as [new Hext].
  pose proof (wellFormed_resolved connection joinColumns relation rc h Hwf) as Hwf1.
  pose proof (resolved_length connection joinColumns relation rc h) as Hlen.
  assert (Forall (fun rc' =>
            rc' < length (Heap.columns
                            (snd (resolved connection joinColumns relation rc h)))
            ∧ rc' ∉ relationalColumnsOf
                      (snd (resolved connection joinColumns relation rc h)) relation)
            rest) as Hrest1.
  { eapply Forall_impl; [exact Hrest|]. intros rc' [Hlt' Hout'].
    split; [lia | eapply scope_extends; eauto]. }
  pose proof (scope_extends relation h _ new rc Hext Hrc Hout) as Hout1.
  destruct Hext as (_ & _ & _ & _ & _ & _ & _ & Hents).
  destruct (resolved _ _ _ _ _) as [r h1]. cbn [fst snd] in *.
  assert (RelationMetadata.entityMetadata relation < length (Heap.entities h1))
    as Howner1 by lia.
  specialize (IH h1 Hwf1 Howner1 Hrest1).
  pose proof (resolvedAll_frame connection joinColumns relation rest h1 r) as Hframe.
  pose proof (resolvedAll_frame_outside connection joinColumns relation rest h1 rc
                Hwf1 Howner1 ltac:(lia) Hout1) as Hframe'.
  destruct (resolvedAll _ _ _ _ _) as [rs h2]. cbn [fst snd] in *.
  constructor; [|exact IH].
  rewrite Hframe by (rewrite Hlink; eauto).
  rewrite Hframe', Hsame. exact Htype.
Qed.

(** X17. The types of the pairs of a foreign key are equal when no referenced
    column lies in the scope searched for existing join columns, as with a
    relation between two different entities. *)
Lemma foreign_key_types connection joinColumns relation h result h' foreignKey :
  wellFormed h →
  RelationMetadata.entityMetadata relation < length (Heap.entities h) →
  (∀ rc, rc ∈ EntityMetadata.ownColumns (targetOf h relation)
         ∨ rc ∈ EntityMetadata.primaryColumns (targetOf h relation) →
         rc ∉ relationalColumnsOf h relation) →
  build connection joinColumns relation h = (Returned result, h') →
  BuildResult.foreignKey result = Some foreignKey →
  Forall2
    (fun r rc =>
       ColumnMetadata.type (Heap.columns h' !!! r)
       = ColumnMetadata.type (Heap.columns h' !!! rc))
    (ForeignKeyMetadata.columns foreignKey)
    (ForeignKeyMetadata.referencedColumns foreignKey).
Proof.
  intros Hwf Howner Hapart Hbuild Hfk.
  destruct (build_Returned _ _ _ _ _ _ Hbuild) as [rcs Hrefs].
  pose proof (collectReferencedColumns_valid _ _ _ _ Hwf Hrefs) as Hvalid.
  assert (Forall (fun rc => rc < length (Heap.columns h)
                            ∧ rc ∉ relationalColumnsOf h relation) rcs) as Hrcs.
  { apply Forall_forall. intros rc Hrc. split.
    - rewrite Forall_forall in Hvalid. apply Hvalid, Hrc.
    - apply Hapart.
      destruct (collectReferencedColumns_Returned _ _ _ _ _ Hrefs) as [Hpk|Hout].
      + right. rewrite <- Hpk. exact Hrc.
      + left. apply list_elem_of_lookup in Hrc as [i Hi].
        destruct (Forall2_lookup_r _ _ _ _ _ Hout Hi)
          as (j & _ & before & after & Hown & _).
        rewrite Hown. apply elem_of_app. right. left. }
  pose proof (resolvedAll_types connection joinColumns relation rcs h Hwf Howner Hrcs)
    as Htypes.
  rewrite (build_run _ _ _ _ _ Hrefs) in Hbuild.
  destruct (_ || _).
  { injection Hbuild as <- <-. discriminate Hfk. }
  destruct (skipsUniqueConstraint _ _ _); injection Hbuild as <- <-;
    injection Hfk as <-; exact Htypes.
Qed.

(** * Further properties of the class *)

(** ** When [build] returns and what it returns *)

Lemma build_outcome connection joinColumns relation h :
  (∃ e, collectReferencedColumns joinColumns relation h = (Thrown e, h)
        ∧ build connection joinColumns relation h = (Thrown e, h))
  ∨ (∃ referencedColumns result h',
       collectReferencedColumns joinColumns relation h
       = (Returned referencedColumns, h)
       ∧ build connection joinColumns relation h = (Returned result, h')).
Proof.
  destruct (collectReferencedColumns joinColumns relation h) as [[rcs|e] h0] eqn:Hrefs;
    pose proof (collectReferencedColumns_heap _ _ _ _ _ Hrefs) as ->.
  - right. exists rcs. rewrite (build_run _ _ _ _ _ Hrefs).
    destruct (_ || _); [|destruct (skipsUniqueConstraint _ _ _)]; eauto.
  - left. exists e. split; [reflexivity | apply build_Thrown, Hrefs].
Qed.

(** X1. [build] returns a foreign key exactly when the list of referenced
    columns is not empty and the relation's createForeignKeyConstraints flag
    is set. *)
Theorem foreign_key_presence connection joinColumns relation h result h' :
  build connection joinColumns relation h = (Returned result, h') →
  ∃ referencedColumns,
    collectReferencedColumns joinColumns relation h
    = (Returned referencedColumns, h)
    ∧ (is_Some (BuildResult.foreignKey result)
       ↔ referencedColumns ≠ []
         ∧ RelationMetadata.createForeignKeyConstraints relation = true).
Proof.
  intros Hbuild.
  destruct (build_Returned _ _ _ _ _ _ Hbuild) as [rcs Hrefs].
  exists rcs. split; [exact Hrefs|].
  rewrite (build_run _ _ _ _ _ Hrefs) in Hbuild.
  destruct rcs as [|rc rcs];
    [|destruct (RelationMetadata.createForeignKeyConstraints relation)];
    cbn [length Nat.eqb orb negb] in Hbuild.
  - injection Hbuild as <- <-. split; [intros [? ?]; discriminate|].
    intros [? _]. congruence.
  - split; [auto with congruence|]. intros _. 
    destruct (skipsUniqueConstraint _ _ _); injection Hbuild as <- <-; eauto.
  - injection Hbuild as <- <-. split; [intros [? ?]; discriminate|].
    intros [_ ?]. discriminate.
Qed.

(** X3. [build] returns a unique constraint only together with a foreign
    key, only for a one-to-one relation and only when one of the returned
    columns is not primary; its target is the owning entity's target. *)
Theorem unique_constraint_requires connection joinColumns relation h result h'
    uniqueConstraint :
  build connection joinColumns relation h = (Returned result, h') →
  BuildResult.uniqueConstraint result = Some uniqueConstraint →
  is_Some (BuildResult.foreignKey result)
  ∧ RelationMetadata.isOneToOne relation = true
  ∧ RelationMetadata.createForeignKeyConstraints relation = true
  ∧ Exists (fun r => ColumnMetadata.isPrimary (Heap.columns h' !!! r) = false)
           (BuildResult.columns result)
  ∧ UniqueMetadata.target uniqueConstraint
    = EntityMetadata.target (ownerOf h' relation).
Proof.
  intros Hbuild Hunique.
  destruct (build_Returned _ _ _ _ _ _ Hbuild) as [rcs Hrefs].
  rewrite (build_run _ _ _ _ _ Hrefs) in Hbuild.
  destruct (Nat.eqb (length rcs) 0) eqn:Hlen; cbn [orb] in Hbuild.
  { injection Hbuild as <- <-. discriminate Hunique. }
  destruct (RelationMetadata.createForeignKeyConstraints relation);
    cbn [negb] in Hbuild.
  2:{ injection Hbuild as <- <-. discriminate Hunique. }
  unfold skipsUniqueConstraint in Hbuild.
  destruct (forallb _ _) eqn:Hprimary; cbn [orb] in Hbuild.
  { injection Hbuild as <- <-. discriminate Hunique. }
  destruct (RelationMetadata.isOneToOne relation); cbn [negb] in Hbuild.
  2:{ injection Hbuild as <- <-. discriminate Hunique. }
  injection Hbuild as <- <-. injection Hunique as <-.
  split; [eauto|]. split; [reflexivity|]. split; [reflexivity|].
  split; [|reflexivity].
  cbn [BuildResult.columns recorded Heap.columns].
  apply Exists_exists.
  apply not_true_iff_false in Hprimary.
  rewrite forallb_true_Forall, <- Exists_Forall_neg in Hprimary
    by (intros r; destruct (ColumnMetadata.isPrimary _); [left|right]; congruence).
  apply Exists_exists in Hprimary as (r & Hin & Hr).
  exists r. split; [exact Hin|]. apply not_true_iff_false, Hr.
Qed.

(** X4. Without join-column specs a relation that is not many-to-one has no
    join columns: [build] returns no foreign key, no columns and no unique
    constraint, and leaves the heap as it was. *)
Theorem no_specs_no_join_columns connection relation h :
  RelationMetadata.isManyToOne relation = false →
  build connection [] relation h
  = (Returned (BuildResult.mk None [] None), h).
Proof.
  intros Hmany.
  assert (collectReferencedColumns [] relation h = (Returned [], h)) as Hrefs.
  { unfold collectReferencedColumns. cbn. rewrite Hmany. reflexivity. }
  rewrite (build_run _ _ _ _ _ Hrefs). reflexivity.
Qed.

(** ** Errors *)

Lemma lookup_prefix_run relation (before : list JoinColumnMetadataArgs.t)
    joinColumn after h :
  Forall (fun j => ∃ r, namedOwnColumn h relation j r) before →
  namesNoOwnColumn h relation joinColumn →
  mapM (findReferencedColumn relation) (before ++ joinColumn :: after) h
  = (Thrown (ReferencedColumnNotFound
               (JoinColumnMetadataArgs.referencedColumnName joinColumn)
               (EntityMetadata.name (targetOf h relation))), h).
Proof.
  intros Hbefore Hnone.
  induction Hbefore as [|j before [r Hr] _ IH]; cbn [app];
    rewrite mapM_cons_run.
  - destruct (findReferencedColumn relation joinColumn h) as [[r|e] h1] eqn:Ej.
    + apply findReferencedColumn_Returned in Ej as [_ Hr].
      destruct (named_contradicts_none _ _ _ _ Hr Hnone).
    + apply findReferencedColumn_Thrown in Ej as (-> & _ & ->). reflexivity.
  - destruct (findReferencedColumn relation j h) as [[r'|e] h1] eqn:Ej.
    + apply findReferencedColumn_Returned in Ej as [-> _].
      rewrite IH. reflexivity.
    + apply findReferencedColumn_Thrown in Ej as (_ & Hno & _).
      destruct (named_contradicts_none _ _ _ _ Hr Hno).
Qed.

(** X5. When the specs are looked up one by one, the error reports the first
    spec, in the order of the list, that names no own column of the target:
    it carries that spec's referenced-property name and the target entity's
    name, and the heap is left as it was. *)
Theorem first_missing_column_is_reported connection before joinColumn after
    relation h :
  ¬ defaultsToPrimaryKey (before ++ joinColumn :: after) relation →
  Forall (fun j => ∃ r, namedOwnColumn h relation j r) before →
  namesNoOwnColumn h relation joinColumn →
  build connection (before ++ joinColumn :: after) relation h
  = (Thrown (ReferencedColumnNotFound
               (JoinColumnMetadataArgs.referencedColumnName joinColumn)
               (EntityMetadata.name (targetOf h relation))), h).
Proof.
  intros Hnot Hbefore Hnone. apply build_Thrown.
  rewrite collectReferencedColumns_lookup by exact Hnot.
  apply lookup_prefix_run; assumption.
Qed.

(** X6. [build] throws exactly when the specs are looked up one by one and
    one of them names no own column of the target; in every other case it
    returns. *)
Theorem build_throws_iff connection joinColumns relation h :
  (∃ e h', build connection joinColumns relation h = (Thrown e, h'))
  ↔ ¬ defaultsToPrimaryKey joinColumns relation
    ∧ Exists (namesNoOwnColumn h relation) joinColumns.
Proof.
  split.
  - intros (e & h' & Hbuild).
    destruct (defaultsToPrimaryKey_dec joinColumns relation) as [Hd|Hn].
    + pose proof (collectReferencedColumns_default joinColumns relation h Hd)
        as Hrefs.
      rewrite (build_run _ _ _ _ _ Hrefs) in Hbuild.
      destruct (_ || _); [|destruct (skipsUniqueConstraint _ _ _)];
        discriminate Hbuild.
    + split; [exact Hn|].
      destruct (findReferencedColumns_run relation joinColumns h)
        as ([rcs|e'] & Hrun & Hout).
      * rewrite <- collectReferencedColumns_lookup in Hrun by exact Hn.
        rewrite (build_run _ _ _ _ _ Hrun) in Hbuild.
        destruct (_ || _); [|destruct (skipsUniqueConstraint _ _ _)];
          discriminate Hbuild.
      * destruct Hout as (j & Hin & Hnone & _).
        apply Exists_exists. eauto.
  - intros [Hn Hex]. apply Exists_exists in Hex as (j & Hin & Hnone).
    destruct (lookup_aborts joinColumns relation h j Hin Hnone) as [name Hrun].
    eexists _, _. apply build_Thrown.
    rewrite collectReferencedColumns_lookup by exact Hn. exact Hrun.
Qed.

(** X7. Whenever [build] throws, the error is the referenced-column-not-found
    error of one of the given specs, for the target entity, and the heap is
    exactly the one [build] started on: nothing was created, registered or
    linked. *)
Theorem build_throws_cleanly connection joinColumns relation h e h' :
  build connection joinColumns relation h = (Thrown e, h') →
  h' = h
  ∧ ∃ j, j ∈ joinColumns
         ∧ namesNoOwnColumn h relation j
         ∧ e = ReferencedColumnNotFound
                 (JoinColumnMetadataArgs.referencedColumnName j)
                 (EntityMetadata.name (targetOf h relation)).
Proof.
  intros Hbuild.
  destruct (collectReferencedColumns joinColumns relation h)
    as [[rcs|e'] h0] eqn:Hrefs;
    pose proof (collectReferencedColumns_heap _ _ _ _ _ Hrefs) as ->.
  - rewrite (build_run _ _ _ _ _ Hrefs) in Hbuild.
    destruct (_ || _); [|destruct (skipsUniqueConstraint _ _ _)];
      discriminate Hbuild.
  - rewrite (build_Thrown _ _ _ _ _ Hrefs) in Hbuild.
    injection Hbuild as <- <-. split; [reflexivity|].
    destruct (defaultsToPrimaryKey_dec joinColumns relation) as [Hd|Hn].
    + rewrite collectReferencedColumns_default in Hrefs by exact Hd.
      discriminate Hrefs.
    + rewrite collectReferencedColumns_lookup in Hrefs by exact Hn.
      destruct (findReferencedColumns_run relation joinColumns h)
        as (o & Hrun & Hout).
      rewrite Hrun in Hrefs. injection Hrefs as ->. exact Hout.
Qed.

(** ** Names *)


(** ** Reused and new columns *)

(** X9. An existing column that is found under the computed name and has no
    referenced-column link is reused in place: the callback returns that
    very column, allocates and registers nothing, overrides its type, link
    and relation, keeps its other attributes and touches no other column. *)
Theorem unlinked_column_is_reused connection joinColumns relation
    referencedColumn h r :
  foundColumn connection joinColumns relation referencedColumn h = Some r →
  ColumnMetadata.referencedColumn (Heap.columns h !!! r) = None →
  r < length (Heap.columns h) →
  ∃ h',
    collectColumn connection joinColumns relation referencedColumn h
    = (Returned r, h')
    ∧ Heap.allocations h' = Heap.allocations h
    ∧ Heap.entities h' = Heap.entities h
    ∧ length (Heap.columns h') = length (Heap.columns h)
    ∧ ColumnMetadata.referencedColumn (Heap.columns h' !!! r)
      = Some referencedColumn
    ∧ ColumnMetadata.type (Heap.columns h' !!! r)
      = ColumnMetadata.type (Heap.columns h !!! referencedColumn)
    ∧ ColumnMetadata.relationMetadata (Heap.columns h' !!! r) = Some relation
    ∧ declaredAttributes (Heap.columns h' !!! r)
      = declaredAttributes (Heap.columns h !!! r)
    ∧ ∀ i, i ≠ r → Heap.columns h' !!! i = Heap.columns h !!! i.
Proof.
  intros Hfound Hunlinked Hlt. rewrite collectColumn_run.
  destruct (resolved_cases connection joinColumns relation referencedColumn h)
    as [[Hnone _]|[(r0 & Hsome & [l Hl] & _)|(r0 & Hsome & _ & Hr)]].
  - congruence.
  - assert (r0 = r) as -> by congruence. congruence.
  - assert (r0 = r) as -> by congruence. rewrite Hr. cbn [fst snd].
    eexists. split; [reflexivity|].
    split; [reflexivity|]. split; [reflexivity|].
    split; [apply linked_length|].
    rewrite linked_self by exact Hlt.
    split; [reflexivity|]. split; [reflexivity|]. split; [reflexivity|].
    split; [reflexivity|].
    intros i Hne. apply linked_other, Hne.
Qed.

(** X10. A column created for a referenced column is a virtual column of
    the owning entity under the relation's property name; it copies type,
    width, charset, collation, precision, scale, zerofill, unsigned, comment
    and enum data from the referenced column, takes its primary and nullable
    flags from the relation, has no generation strategy, and is linked to
    the referenced column and attached to the relation. *)
Theorem new_column_attributes connection joinColumns relation
    referencedColumn h :
  foundColumn connection joinColumns relation referencedColumn h = None →
  referencedColumn < length (Heap.columns h) →
  ∃ h',
    collectColumn connection joinColumns relation referencedColumn h
    = (Returned (length (Heap.columns h)), h')
    ∧ let c := Heap.columns h' !!! length (Heap.columns h) in
      let rc := Heap.columns h !!! referencedColumn in
      ColumnMetadata.entityMetadata c = RelationMetadata.entityMetadata relation
      ∧ ColumnMetadata.embeddedMetadata c
        = RelationMetadata.embeddedMetadata relation
      ∧ ColumnMetadata.propertyName c = RelationMetadata.propertyName relation
      ∧ ColumnMetadata.isVirtual c = true
      ∧ ColumnMetadata.type c = ColumnMetadata.type rc
      ∧ ColumnMetadata.width c = ColumnMetadata.width rc
      ∧ ColumnMetadata.charset c = ColumnMetadata.charset rc
      ∧ ColumnMetadata.collation c = ColumnMetadata.collation rc
      ∧ ColumnMetadata.precision c = ColumnMetadata.precision rc
      ∧ ColumnMetadata.scale c = ColumnMetadata.scale rc
      ∧ ColumnMetadata.zerofill c = ColumnMetadata.zerofill rc
      ∧ ColumnMetadata.unsigned c = ColumnMetadata.unsigned rc
      ∧ ColumnMetadata.comment c = ColumnMetadata.comment rc
      ∧ ColumnMetadata.enum c = ColumnMetadata.enum rc
      ∧ ColumnMetadata.enumName c = ColumnMetadata.enumName rc
      ∧ ColumnMetadata.isPrimary c = RelationMetadata.isPrimary relation
      ∧ ColumnMetadata.isNullable c = RelationMetadata.isNullable relation
      ∧ ColumnMetadata.generationStrategy c = None
      ∧ ColumnMetadata.referencedColumn c = Some referencedColumn
      ∧ ColumnMetadata.relationMetadata c = Some relation.
Proof.
  intros Hnone Hrc. rewrite collectColumn_run.
  destruct (resolved_cases connection joinColumns relation referencedColumn h)
    as [[_ Hr]|[(r0 & Hsome & _)|(r0 & Hsome & _)]]; try congruence.
  rewrite Hr. cbn [fst snd]. eexists. split; [reflexivity|]. cbv zeta.
  rewrite linked_self by (rewrite created_length; lia).
  unfold linkedColumn. rewrite created_fresh.
  cbn [ColumnMetadata.set_databaseNames ColumnMetadata.set_relationMetadata
       ColumnMetadata.set_type ColumnMetadata.set_referencedColumn
       ColumnMetadata.entityMetadata ColumnMetadata.embeddedMetadata
       ColumnMetadata.propertyName ColumnMetadata.isVirtual ColumnMetadata.type
       ColumnMetadata.width ColumnMetadata.charset ColumnMetadata.collation
       ColumnMetadata.precision ColumnMetadata.scale ColumnMetadata.zerofill
       ColumnMetadata.unsigned ColumnMetadata.comment ColumnMetadata.enum
       ColumnMetadata.enumName ColumnMetadata.isPrimary ColumnMetadata.isNullable
       ColumnMetadata.generationStrategy ColumnMetadata.referencedColumn
       ColumnMetadata.relationMetadata].
  assert (Heap.columns
            (created relation
               (joinColumnOptions connection relation
                  (joinColumnNameFor connection joinColumns relation
                     (Heap.columns h !!! referencedColumn))
                  (Heap.columns h !!! referencedColumn)) h) !!! referencedColumn
          = Heap.columns h !!! referencedColumn) as ->.
  { simpl. apply lookup_total_app_l, Hrc. }
  repeat split.
Qed.

(** ** The columns of one [build] *)

Lemma resolved_linked connection joinColumns relation referencedColumn h :
  Forall (fun r => r < length (Heap.columns h)) (relationalColumnsOf h relation) →
  let r := fst (resolved connection joinColumns relation referencedColumn h) in
  let h' := snd (resolved connection joinColumns relation referencedColumn h) in
  ColumnMetadata.referencedColumn (Heap.columns h' !!! r) = Some referencedColumn
  ∧ ColumnMetadata.relationMetadata (Heap.columns h' !!! r) = Some relation.
Proof.
  intros Hscope. cbv zeta.
  destruct (resolved_cases connection joinColumns relation referencedColumn h)
    as [[_ ->]|[(r0 & _ & _ & ->)|(r & Hfound & _ & ->)]]; cbn [fst snd].
  - rewrite linked_self by (rewrite created_length; lia). split; reflexivity.
  - rewrite linked_self by (rewrite cloned_length; lia). split; reflexivity.
  - apply foundColumn_in_scope in Hfound as [Hin _].
    rewrite Forall_forall in Hscope. specialize (Hscope r Hin).
    rewrite linked_self by exact Hscope. split; reflexivity.
Qed.

Lemma blank_unlinked (columns : list ColumnMetadata.t) r :
  length columns ≤ r → ColumnMetadata.referencedColumn (columns !!! r) = None.
Proof.
  intros Hge. rewrite list_lookup_total_alt, lookup_ge_None_2 by exact Hge.
  reflexivity.
Qed.

(** The columns returned for a list of referenced columns carried no link
    before: each is a new object or an existing unlinked column. *)
Lemma resolvedAll_unlinked connection joinColumns relation referencedColumns h r :
  r ∈ fst (resolvedAll connection joinColumns relation referencedColumns h) →
  ColumnMetadata.referencedColumn (Heap.columns h !!! r) = None.
Proof.
  revert h. induction referencedColumns as [|rc rest IH]; intros h Hin.
  - inversion Hin.
  - simpl in Hin.
    pose proof (resolved_cases connection joinColumns relation rc h) as Hcases.
    pose proof (resolved_frame connection joinColumns relation rc h r) as Hframe.
    destruct (resolved _ _ _ _ _) as [r1 h1]. cbn [fst snd] in *.
    specialize (IH h1).
    destruct (resolvedAll _ _ _ _ _) as [rs h2]. cbn [fst snd] in *.
    apply elem_of_cons in Hin as [->|Hin].
    + destruct Hcases as [[_ [= -> _]]|[(r0 & _ & _ & [= -> _])|(r0 & _ & Hnone & [= -> _])]];
        [apply blank_unlinked; lia | apply blank_unlinked; lia | exact Hnone].
    + specialize (IH Hin).
      destruct (ColumnMetadata.referencedColumn (Heap.columns h !!! r)) as [l|] eqn:El;
        [|reflexivity].
      rewrite Hframe, El in IH by eauto. discriminate IH.
Qed.

Lemma resolvedAll_attached connection joinColumns relation referencedColumns h :
  wellFormed h →
  Forall
    (fun r =>
       ColumnMetadata.relationMetadata
         (Heap.columns
            (snd (resolvedAll connection joinColumns relation referencedColumns h))
            !!! r)
       = Some relation)
    (fst (resolvedAll connection joinColumns relation referencedColumns h))
  ∧ NoDup (fst (resolvedAll connection joinColumns relation referencedColumns h)).
Proof.
  revert h. induction referencedColumns as [|rc rest IH]; intros h Hwf.
  - split; constructor.
  - simpl.
    pose proof (resolved_linked connection joinColumns relation rc h
                  (relationalColumnsOf_valid h relation Hwf)) as [Hlink Hrel].
    pose proof (wellFormed_resolved connection joinColumns relation rc h Hwf) as Hwf1.
    destruct (resolved _ _ _ _ _) as [r h1]. cbn [fst snd] in *.
    specialize (IH h1 Hwf1).
    pose proof (resolvedAll_frame connection joinColumns relation rest h1 r) as Hframe.
    pose proof (resolvedAll_unlinked connection joinColumns relation rest h1 r)
      as Hunlinked.
    destruct (resolvedAll _ _ _ _ _) as [rs h2]. cbn [fst snd] in *.
    destruct IH as [IHrel IHnodup]. split.
    + constructor; [|exact IHrel].
      rewrite Hframe by (rewrite Hlink; eauto). exact Hrel.
    + constructor; [|exact IHnodup].
      intros Hin. specialize (Hunlinked Hin). congruence.
Qed.

(** X11. On a heap without dangling references the columns that [build]
    returns are pairwise different objects, and each of them is attached to
    the relation. *)
Theorem returned_columns_are_distinct connection joinColumns relation h
    result h' :
  wellFormed h →
  build connection joinColumns relation h = (Returned result, h') →
  NoDup (BuildResult.columns result)
  ∧ Forall
      (fun r =>
         ColumnMetadata.relationMetadata (Heap.columns h' !!! r) = Some relation)
      (BuildResult.columns result).
Proof.
  intros Hwf Hbuild.
  destruct (build_Returned _ _ _ _ _ _ Hbuild) as [rcs Hrefs].
  destruct (resolvedAll_attached connection joinColumns relation rcs h Hwf)
    as [Hrel Hnodup].
  rewrite (build_run _ _ _ _ _ Hrefs) in Hbuild.
  destruct (_ || _); [|destruct (skipsUniqueConstraint _ _ _)];
    injection Hbuild as <- <-; split; assumption.
Qed.

Lemma build_columns connection joinColumns relation h referencedColumns :
  collectReferencedColumns joinColumns relation h
  = (Returned referencedColumns, h) →
  let h1 := snd (resolvedAll connection joinColumns relation referencedColumns h) in
  let h' := snd (build connection joinColumns relation h) in
  Heap.columns h' = Heap.columns h1
  ∧ Heap.entities h' = Heap.entities h1
  ∧ Heap.embeddeds h' = Heap.embeddeds h1.
Proof.
  intros Hrefs. cbv zeta. rewrite (build_run _ _ _ _ _ Hrefs).
  destruct (_ || _); [|destruct (skipsUniqueConstraint _ _ _)];
    repeat split.
Qed.

(** X12. [build] writes no existing column that lies outside the column
    scope it searches (the embedded's columns, or the owning entity's own
    columns): the columns of another entity, the referenced ones among
    them, are left exactly as they were. *)
Theorem columns_outside_scope_untouched connection joinColumns relation h i :
  wellFormed h →
  RelationMetadata.entityMetadata relation < length (Heap.entities h) →
  i < length (Heap.columns h) →
  i ∉ relationalColumnsOf h relation →
  Heap.columns (snd (build connection joinColumns relation h)) !!! i
  = Heap.columns h !!! i.
Proof.
  intros Hwf Howner Hlt Hout.
  destruct (build_outcome connection joinColumns relation h)
    as [(e & _ & ->)|(rcs & result & h' & Hrefs & _)]; [reflexivity|].
  destruct (build_columns connection joinColumns relation h rcs Hrefs) as (-> & _).
  apply resolvedAll_frame_outside; assumption.
Qed.

(** X13. [build] keeps the heap free of dangling references: if every
    reference held by the entities and embeddeds points to an allocated
    column before, the same holds afterwards, and no column is ever
    removed. *)
Theorem build_keeps_wellFormed connection joinColumns relation h :
  wellFormed h →
  wellFormed (snd (build connection joinColumns relation h))
  ∧ length (Heap.columns h)
    ≤ length (Heap.columns (snd (build connection joinColumns relation h))).
Proof.
  intros Hwf.
  destruct (build_outcome connection joinColumns relation h)
    as [(e & _ & ->)|(rcs & result & h' & Hrefs & _)];
    [split; [exact Hwf|reflexivity]|].
  destruct (build_columns connection joinColumns relation h rcs Hrefs)
    as (Hc & He & Hm).
  pose proof (wellFormed_resolvedAll connection joinColumns relation rcs h Hwf)
    as Hwf1.
  pose proof (resolvedAll_grows connection joinColumns relation rcs h) as Hlen.
  split; [|rewrite Hc; exact Hlen].
  unfold wellFormed in *. rewrite Hc, He, Hm. exact Hwf1.
Qed.

(** X14. [build] changes no entity but the owning one and no embedded: every
    other entity, the target of a relation between two entities among them,
    keeps its own columns and all its other properties; the owning entity
    keeps the own columns it had, in their order, as a prefix of its new
    list. *)
Theorem only_the_owner_is_changed connection joinColumns relation h :
  wellFormed h →
  RelationMetadata.entityMetadata relation < length (Heap.entities h) →
  let h' := snd (build connection joinColumns relation h) in
  (∀ e, e ≠ RelationMetadata.entityMetadata relation →
        Heap.entities h' !!! e = Heap.entities h !!! e)
  ∧ Heap.embeddeds h' = Heap.embeddeds h
  ∧ length (Heap.entities h') = length (Heap.entities h)
  ∧ EntityMetadata.ownColumns (ownerOf h relation)
    `prefix_of` EntityMetadata.ownColumns (ownerOf h' relation).
Proof.
  intros Hwf Howner. cbv zeta.
  destruct (build_outcome connection joinColumns relation h)
    as [(e & _ & ->)|(rcs & result & h' & Hrefs & _)].
  { repeat split; auto. }
  destruct (build_columns connection joinColumns relation h rcs Hrefs)
    as (_ & He & Hm).
  destruct (resolvedAll_extends connection joinColumns relation rcs h Hwf Howner)
    as (new & _ & _ & _ & _ & Hown & Hother & Hemb & Hents).
  unfold ownerOf in *. rewrite He, Hm.
  split; [exact Hother|]. split; [exact Hemb|]. split; [exact Hents|].
  rewrite Hown. apply prefix_app_r. reflexivity.
Qed.

Lemma resolved_allocates_at_most_one connection joinColumns relation
    referencedColumn h :
  length (Heap.columns
            (snd (resolved connection joinColumns relation referencedColumn h)))
  ≤ S (length (Heap.columns h)).
Proof.
  destruct (resolved_cases connection joinColumns relation referencedColumn h)
    as [[_ ->]|[(r0 & _ & _ & ->)|(r & _ & _ & ->)]]; cbn [snd];
    rewrite linked_length, ?created_length, ?cloned_length; lia.
Qed.

Lemma resolvedAll_allocates_at_most connection joinColumns relation
    referencedColumns h :
  length (Heap.columns
            (snd (resolvedAll connection joinColumns relation referencedColumns h)))
  ≤ length (Heap.columns h) + length referencedColumns.
Proof.
  revert h. induction referencedColumns as [|rc rest IH]; intros h;
    [simpl; lia|].
  simpl.
  pose proof (resolved_allocates_at_most_one connection joinColumns relation rc h)
    as Hstep.
  destruct (resolved _ _ _ _ _) as [r h1]. specialize (IH h1).
  destruct (resolvedAll _ _ _ _ _) as [rs h2]. simpl in *. lia.
Qed.

(** X15. [build] returns one column per referenced column and allocates at
    most one column object for each of them. *)
Theorem one_column_per_referenced_column connection joinColumns relation h
    result h' :
  build connection joinColumns relation h = (Returned result, h') →
  ∃ referencedColumns,
    collectReferencedColumns joinColumns relation h
    = (Returned referencedColumns, h)
    ∧ length (BuildResult.columns result) = length referencedColumns
    ∧ length (Heap.columns h')
      ≤ length (Heap.columns h) + length referencedColumns.
Proof.
  intros Hbuild.
  destruct (build_Returned _ _ _ _ _ _ Hbuild) as [rcs Hrefs].
  exists rcs. split; [exact Hrefs|].
  pose proof (resolvedAll_length connection joinColumns relation rcs h) as Hlen.
  pose proof (resolvedAll_allocates_at_most connection joinColumns relation rcs h)
    as Hmost.
  rewrite (build_run _ _ _ _ _ Hrefs) in Hbuild.
  destruct (_ || _); [|destruct (skipsUniqueConstraint _ _ _)];
    injection Hbuild as <- <-; split; assumption.
Qed.

(** ** The sample schemas *)

Import Sample.
Local Open Scope string_scope.

Lemma missing_referenced_column_aborts_witness :
  referencing "nope" ∈ [referencing "nope"]
  ∧ carriesReferencedName (referencing "nope")
  ∧ namesNoOwnColumn blog cover (referencing "nope")
  ∧ ∃ name,
      build postgres [referencing "nope"] cover blog
      = (Thrown (ReferencedColumnNotFound name "Category"), blog).
Proof.
  assert (referencing "nope" ∈ [referencing "nope"]) as Hin by left.
  assert (carriesReferencedName (referencing "nope")) as Hcarries by reflexivity.
  assert (namesNoOwnColumn blog cover (referencing "nope")) as Hnone
    by (repeat constructor; discriminate).
  split; [exact Hin|]. split; [exact Hcarries|]. split; [exact Hnone|].
  destruct (missing_referenced_column_aborts postgres [referencing "nope"] cover
              blog (referencing "nope") Hin Hcarries Hnone) as [name Hbuild].
  exists name. exact Hbuild.
Defined.

Lemma mixed_specs_abort_witness :
  referencing "code" ∈ [referencing "code"; named "x"]
  ∧ carriesReferencedName (referencing "code")
  ∧ named "x" ∈ [referencing "code"; named "x"]
  ∧ JoinColumnMetadataArgs.referencedColumnName (named "x") = None
  ∧ ∃ name,
      build postgres [referencing "code"; named "x"] cover blog
      = (Thrown (ReferencedColumnNotFound name "Category"), blog).
Proof.
  assert (referencing "code" ∈ [referencing "code"; named "x"]) as Hin1 by left.
  assert (named "x" ∈ [referencing "code"; named "x"]) as Hin2 by (right; left).
  split; [exact Hin1|]. split; [reflexivity|]. split; [exact Hin2|].
  split; [reflexivity|].
  destruct (mixed_specs_abort postgres [referencing "code"; named "x"] cover
              blog (referencing "code") (named "x") Hin1 eq_refl Hin2 eq_refl)
    as (_ & _ & name & _ & Hbuild).
  exists name. exact Hbuild.
Defined.

Lemma build_without_foreign_key_witness :
  collectReferencedColumns [] cover blog = (Returned [], blog)
  ∧ ∃ new,
      build postgres [] cover blog
      = (Returned (BuildResult.mk None [] None), blog)
      ∧ Heap.allocations blog = (Heap.allocations blog ++ new)%list
      ∧ (NewForeignKeyMetadata ∉ new)
      ∧ (NewUniqueMetadata ∉ new).
Proof.
  split; [reflexivity|].
  destruct (build_without_foreign_key postgres [] cover blog [] eq_refl
              (or_introl eq_refl))
    as (columns & h' & new & Hbuild & _ & _ & Hempty & Hnew & Hfk & Hunique).
  destruct (Hempty eq_refl) as [-> ->].
  exists new. auto.
Defined.

Lemma unique_constraint_gating_witness :
  ∃ result h' foreignKey uniqueConstraint,
    build postgres [referencing "code"] cover blog = (Returned result, h')
    ∧ BuildResult.foreignKey result = Some foreignKey
    ∧ BuildResult.uniqueConstraint result = Some uniqueConstraint
    ∧ UniqueMetadata.columns uniqueConstraint
      = ForeignKeyMetadata.columns foreignKey
    ∧ UniqueMetadata.givenName uniqueConstraint = "REL_post_cover_code".
Proof.
  destruct (build postgres [referencing "code"] cover blog)
    as [[result|e] h'] eqn:Hbuild; [|vm_compute in Hbuild; discriminate].
  pose proof Hbuild as Hrun. vm_compute in Hrun. injection Hrun as <- <-.
  eexists _, _, _, _. split; [reflexivity|].
  split; [reflexivity|]. split; [reflexivity|].
  destruct (unique_constraint_gating postgres [referencing "code"] cover blog
              _ _ _ Hbuild eq_refl) as (_ & _ & Hunique).
  destruct (Hunique _ eq_refl) as (Hcolumns & _ & Hname).
  split; [exact Hcolumns|]. rewrite Hname. reflexivity.
Defined.

Lemma new_column_length_witness :
  foundColumn mysql [referencing "code"] cover 4 blog = None
  ∧ ∃ r h',
      collectColumn mysql [referencing "code"] cover 4 blog = (Returned r, h')
      ∧ ColumnMetadata.length (Heap.columns h' !!! r) = "36".
Proof.
  split; [reflexivity|].
  destruct (new_column_length mysql [referencing "code"] cover 4 blog eq_refl)
    as (r & h' & Hrun & _ & [[_ Hlength]|[Hnot _]]).
  - exists r, h'. auto.
  - exfalso. apply Hnot.
    split; [reflexivity|]. split; [reflexivity|]. split; [discriminate|].
    right. reflexivity.
Defined.

Lemma shared_column_is_cloned_witness :
  foundColumn postgres [named "category_id"] mainCategory 2 blogWithCategory
  = Some 5
  ∧ is_Some (ColumnMetadata.referencedColumn
               (Heap.columns blogWithCategory !!! 5))
  ∧ 2 < length (Heap.columns blogWithCategory)
  ∧ ∃ clone h',
      collectColumn postgres [named "category_id"] mainCategory 2
        blogWithCategory = (Returned clone, h')
      ∧ clone ≠ 5
      ∧ Heap.columns h' !!! 5 = Heap.columns blogWithCategory !!! 5.
Proof.
  assert (is_Some (ColumnMetadata.referencedColumn
                     (Heap.columns blogWithCategory !!! 5))) as Hlink
    by (exists 2; reflexivity).
  assert (2 < length (Heap.columns blogWithCategory)) as Hrc
    by (vm_compute; lia).
  split; [reflexivity|]. split; [exact Hlink|]. split; [exact Hrc|].
  destruct (shared_column_is_cloned postgres [named "category_id"] mainCategory
              2 blogWithCategory 5 eq_refl Hlink Hrc)
    as (clone & h' & Hrun & Hne & _ & Hsame & _).
  exists clone, h'. auto.
Defined.

Lemma blog_wellFormed : wellFormed blog.
Proof.
  split; vm_compute; repeat (constructor; try lia).
Qed.



(** C2, at the failing input. Node refers to itself with the join columns
    (x -> a, a -> b): column x is created with the type of a, then the
    existing column a is reused for the second pair and takes the type of b.
    The foreign key pairs x with a, whose types now differ. *)
Theorem foreign_key_types_diverge :
  ∃ result h' foreignKey,
    build postgres [joinColumn "x" "a"; joinColumn "a" "b"] link nodes
    = (Returned result, h')
    ∧ BuildResult.foreignKey result = Some foreignKey
    ∧ ForeignKeyMetadata.columns foreignKey = [2; 0]
    ∧ ForeignKeyMetadata.referencedColumns foreignKey = [0; 1]
    ∧ ColumnMetadata.type (Heap.columns h' !!! 2) = "int"
    ∧ ColumnMetadata.type (Heap.columns h' !!! 0) = "varchar"
    ∧ ¬ Forall2
          (fun r rc =>
             ColumnMetadata.type (Heap.columns h' !!! r)
             = ColumnMetadata.type (Heap.columns h' !!! rc))
          (ForeignKeyMetadata.columns foreignKey)
          (ForeignKeyMetadata.referencedColumns foreignKey).
Proof.
  eexists _, _, _. split; [vm_compute; reflexivity|].
  split; [reflexivity|]. split; [reflexivity|]. split; [reflexivity|].
  split; [reflexivity|]. split; [reflexivity|].
  intros Hall. apply Forall2_cons_1 in Hall as [Habs _]. discriminate Habs.
Qed.

(** ** The extras on the sample schemas *)

Lemma foreign_key_presence_witness :
  ∃ result h',
    build postgres [] category blog = (Returned result, h')
    ∧ is_Some (BuildResult.foreignKey result).
Proof.
  destruct (build postgres [] category blog) as [[result|e] h'] eqn:Hbuild;
    [|vm_compute in Hbuild; discriminate].
  exists result, h'. split; [reflexivity|].
  destruct (foreign_key_presence postgres [] category blog result h' Hbuild)
    as (rcs & Hrefs & Hiff).
  apply Hiff. vm_compute in Hrefs. injection Hrefs as <-.
  split; [discriminate | reflexivity].
Defined.

Lemma unique_constraint_requires_witness :
  ∃ result h' uniqueConstraint,
    build postgres [referencing "code"] cover blog = (Returned result, h')
    ∧ BuildResult.uniqueConstraint result = Some uniqueConstraint
    ∧ is_Some (BuildResult.foreignKey result)
    ∧ UniqueMetadata.target uniqueConstraint = "Post".
Proof.
  destruct (build postgres [referencing "code"] cover blog)
    as [[result|e] h'] eqn:Hbuild; [|vm_compute in Hbuild; discriminate].
  pose proof Hbuild as Hrun. vm_compute in Hrun. injection Hrun as <- <-.
  eexists _, _, _. split; [reflexivity|]. split; [reflexivity|].
  destruct (unique_constraint_requires postgres [referencing "code"] cover blog
              _ _ _ Hbuild eq_refl) as (Hfk & _ & _ & _ & Htarget).
  split; [exact Hfk | exact Htarget].
Defined.

Lemma no_specs_no_join_columns_witness :
  RelationMetadata.isManyToOne cover = false
  ∧ build postgres [] cover blog = (Returned (BuildResult.mk None [] None), blog).
Proof.
  split; [reflexivity|].
  exact (no_specs_no_join_columns postgres cover blog eq_refl).
Defined.

Lemma first_missing_column_is_reported_witness :
  ¬ defaultsToPrimaryKey
      ([joinColumn "cover_id" "id"] ++ referencing "nope" :: [referencing "none"])
      cover
  ∧ Forall (fun j => ∃ r, namedOwnColumn blog cover j r)
           [joinColumn "cover_id" "id"]
  ∧ namesNoOwnColumn blog cover (referencing "nope")
  ∧ build postgres
      ([joinColumn "cover_id" "id"] ++ referencing "nope" :: [referencing "none"])
      cover blog
    = (Thrown (ReferencedColumnNotFound (Some "nope") "Category"), blog).
Proof.
  assert (¬ defaultsToPrimaryKey
            ([joinColumn "cover_id" "id"]
             ++ referencing "nope" :: [referencing "none"]) cover) as Hnot.
  { apply (carries_not_default _ _ (referencing "nope"));
      [right; left | reflexivity]. }
  assert (Forall (fun j => ∃ r, namedOwnColumn blog cover j r)
                 [joinColumn "cover_id" "id"]) as Hbefore.
  { constructor; [|constructor]. exists 2, [], [3; 4].
    split; [reflexivity|]. split; [reflexivity | constructor]. }
  assert (namesNoOwnColumn blog cover (referencing "nope")) as Hnone
    by (repeat constructor; discriminate).
  split; [exact Hnot|]. split; [exact Hbefore|]. split; [exact Hnone|].
  exact (first_missing_column_is_reported postgres [joinColumn "cover_id" "id"]
           (referencing "nope") [referencing "none"] cover blog
           Hnot Hbefore Hnone).
Defined.

Lemma build_throws_cleanly_witness :
  ∃ e h',
    build postgres [referencing "nope"] cover blog = (Thrown e, h')
    ∧ h' = blog.
Proof.
  destruct (build postgres [referencing "nope"] cover blog)
    as [[result|e] h'] eqn:Hbuild; [vm_compute in Hbuild; discriminate|].
  exists e, h'. split; [reflexivity|].
  destruct (build_throws_cleanly postgres [referencing "nope"] cover blog e h'
              Hbuild) as [Hheap _].
  exact Hheap.
Defined.


Lemma unlinked_column_is_reused_witness :
  foundColumn postgres [named "title"] category 2 blog = Some 1
  ∧ ColumnMetadata.referencedColumn (Heap.columns blog !!! 1) = None
  ∧ 1 < length (Heap.columns blog)
  ∧ ∃ h',
      collectColumn postgres [named "title"] category 2 blog = (Returned 1, h')
      ∧ Heap.allocations h' = Heap.allocations blog
      ∧ ColumnMetadata.type (Heap.columns h' !!! 1) = "int".
Proof.
  assert (1 < length (Heap.columns blog)) as Hlt by (vm_compute; lia).
  split; [reflexivity|]. split; [reflexivity|]. split; [exact Hlt|].
  destruct (unlinked_column_is_reused postgres [named "title"] category 2 blog 1
              eq_refl eq_refl Hlt)
    as (h' & Hrun & Halloc & _ & _ & _ & Htype & _).
  exists h'. split; [exact Hrun|]. split; [exact Halloc|].
  rewrite Htype. reflexivity.
Defined.

Lemma new_column_attributes_witness :
  foundColumn postgres [] category 2 blog = None
  ∧ 2 < length (Heap.columns blog)
  ∧ ∃ h',
      collectColumn postgres [] category 2 blog = (Returned 5, h')
      ∧ ColumnMetadata.propertyName (Heap.columns h' !!! 5) = "category"
      ∧ ColumnMetadata.isNullable (Heap.columns h' !!! 5) = true.
Proof.
  assert (2 < length (Heap.columns blog)) as Hrc by (vm_compute; lia).
  split; [reflexivity|]. split; [exact Hrc|].
  destruct (new_column_attributes postgres [] category 2 blog eq_refl Hrc)
    as (h' & Hrun & Hall).
  cbv zeta in Hall.
  destruct Hall as (_ & _ & Hname & _ & _ & _ & _ & _ & _ & _ & _ & _ & _ & _
                    & _ & _ & Hnullable & _).
  exists h'. split; [exact Hrun|]. split; [exact Hname | exact Hnullable].
Defined.

Lemma returned_columns_are_distinct_witness :
  wellFormed blog
  ∧ ∃ result h',
      build postgres [] category blog = (Returned result, h')
      ∧ NoDup (BuildResult.columns result).
Proof.
  split; [exact blog_wellFormed|].
  destruct (build postgres [] category blog) as [[result|e] h'] eqn:Hbuild;
    [|vm_compute in Hbuild; discriminate].
  exists result, h'. split; [reflexivity|].
  destruct (returned_columns_are_distinct postgres [] category blog result h'
              blog_wellFormed Hbuild) as [Hnodup _].
  exact Hnodup.
Defined.

Lemma columns_outside_scope_untouched_witness :
  wellFormed blog
  ∧ RelationMetadata.entityMetadata category < length (Heap.entities blog)
  ∧ 2 < length (Heap.columns blog)
  ∧ (2 ∉ relationalColumnsOf blog category)
  ∧ Heap.columns (snd (build postgres [] category blog)) !!! 2
    = Heap.columns blog !!! 2.
Proof.
  assert (RelationMetadata.entityMetadata category < length (Heap.entities blog))
    as Howner by (vm_compute; lia).
  assert (2 < length (Heap.columns blog)) as Hlt by (vm_compute; lia).
  assert (2 ∉ relationalColumnsOf blog category) as Hout.
  { intros Hin. apply list_elem_of_In in Hin. vm_compute in Hin. lia. }
  split; [exact blog_wellFormed|]. split; [exact Howner|].
  split; [exact Hlt|]. split; [exact Hout|].
  exact (columns_outside_scope_untouched postgres [] category blog 2
           blog_wellFormed Howner Hlt Hout).
Defined.

Lemma build_keeps_wellFormed_witness :
  wellFormed blog ∧ wellFormed (snd (build postgres [] category blog)).
Proof.
  split; [exact blog_wellFormed|].
  destruct (build_keeps_wellFormed postgres [] category blog blog_wellFormed)
    as [Hwf _].
  exact Hwf.
Defined.

Lemma only_the_owner_is_changed_witness :
  wellFormed blog
  ∧ RelationMetadata.entityMetadata category < length (Heap.entities blog)
  ∧ Heap.entities (snd (build postgres [] category blog)) !!! 1
    = Heap.entities blog !!! 1.
Proof.
  assert (RelationMetadata.entityMetadata category < length (Heap.entities blog))
    as Howner by (vm_compute; lia).
  split; [exact blog_wellFormed|]. split; [exact Howner|].
  destruct (only_the_owner_is_changed postgres [] category blog blog_wellFormed
              Howner) as (Hother & _).
  apply Hother. vm_compute. lia.
Defined.

Lemma one_column_per_referenced_column_witness :
  ∃ result h',
    build postgres [] category blog = (Returned result, h')
    ∧ (length (Heap.columns h') ≤ length (Heap.columns blog) + 1)%nat.
Proof.
  destruct (build postgres [] category blog) as [[result|e] h'] eqn:Hbuild;
    [|vm_compute in Hbuild; discriminate].
  exists result, h'. split; [reflexivity|].
  destruct (one_column_per_referenced_column postgres [] category blog result h'
              Hbuild) as (rcs & Hrefs & _ & Hmost).
  vm_compute in Hrefs. injection Hrefs as <-. exact Hmost.
Defined.

Lemma foreign_key_links_witness :
  wellFormed blog
  ∧ ∃ result h' foreignKey,
      build postgres [] category blog = (Returned result, h')
      ∧ BuildResult.foreignKey result = Some foreignKey
      ∧ length (ForeignKeyMetadata.columns foreignKey)
        = length (ForeignKeyMetadata.referencedColumns foreignKey).
Proof.
  split; [exact blog_wellFormed|].
  destruct (build postgres [] category blog) as [[result|e] h'] eqn:Hbuild;
    [|vm_compute in Hbuild; discriminate].
  pose proof Hbuild as Hrun. vm_compute in Hrun. injection Hrun as <- <-.
  eexists _, _, _. split; [reflexivity|]. split; [reflexivity|].
  destruct (foreign_key_links postgres [] category blog _ _ _ blog_wellFormed
              Hbuild eq_refl) as [Hlen _].
  exact Hlen.
Defined.

Lemma foreign_key_types_witness :
  wellFormed blog
  ∧ RelationMetadata.entityMetadata category < length (Heap.entities blog)
  ∧ (∀ rc, rc ∈ EntityMetadata.ownColumns (targetOf blog category)
           ∨ rc ∈ EntityMetadata.primaryColumns (targetOf blog category) →
           rc ∉ relationalColumnsOf blog category)
  ∧ ∃ result h' foreignKey,
      build postgres [] category blog = (Returned result, h')
      ∧ BuildResult.foreignKey result = Some foreignKey
      ∧ Forall2
          (fun r rc =>
             ColumnMetadata.type (Heap.columns h' !!! r)
             = ColumnMetadata.type (Heap.columns h' !!! rc))
          (ForeignKeyMetadata.columns foreignKey)
          (ForeignKeyMetadata.referencedColumns foreignKey).
Proof.
  assert (RelationMetadata.entityMetadata category < length (Heap.entities blog))
    as Howner by (vm_compute; lia).
  assert (∀ rc, rc ∈ EntityMetadata.ownColumns (targetOf blog category)
                ∨ rc ∈ EntityMetadata.primaryColumns (targetOf blog category) →
                rc ∉ relationalColumnsOf blog category) as Hapart.
  { intros rc Hrc Hin. apply list_elem_of_In in Hin. vm_compute in Hin.
    destruct Hrc as [Hrc|Hrc]; apply list_elem_of_In in Hrc;
      vm_compute in Hrc; lia. }
  split; [exact blog_wellFormed|]. split; [exact Howner|].
  split; [exact Hapart|].
  destruct (build postgres [] category blog) as [[result|e] h'] eqn:Hbuild;
    [|vm_compute in Hbuild; discriminate].
  pose proof Hbuild as Hrun. vm_compute in Hrun. injection Hrun as <- <-.
  eexists _, _, _. split; [reflexivity|]. split; [reflexivity|].
  exact (foreign_key_types postgres [] category blog _ _ _ blog_wellFormed
           Howner Hapart Hbuild eq_refl).
Defined.

Lemma join_column_physical_name_witness :
  wellFormed blog
  ∧ keepsGivenNames postgres
  ∧ Forall (fun r => builtWith postgres (Heap.columns blog !!! r))
           (relationalColumnsOf blog category)
  ∧ ∃ r h',
      collectColumn postgres [named "category_id"] category 2 blog
      = (Returned r, h')
      ∧ Some (ColumnMetadata.databaseNameWithoutPrefixes (Heap.columns h' !!! r))
        = Some "category_id"
      ∧ Some (ColumnMetadata.databaseName (Heap.columns h' !!! r))
        = Some "category_id".
Proof.
  assert (keepsGivenNames postgres) as Hkeeps.
  { intros propertyName name Hname. unfold postgres, namingStrategy.
    cbn [DataSource.namingStrategy NamingStrategy.columnName String.concat].
    rewrite Hname. reflexivity. }
  assert (Forall (fun r => builtWith postgres (Heap.columns blog !!! r))
                 (relationalColumnsOf blog category)) as Hbuilt
    by (repeat constructor).
  split; [exact blog_wellFormed|]. split; [exact Hkeeps|].
  split; [exact Hbuilt|].
  destruct (join_column_physical_name postgres [named "category_id"] category 2
              blog blog_wellFormed Hkeeps Hbuilt eq_refl)
    as (_ & r & h' & Hrun & Hshort & _ & Hfull).
  exists r, h'. split; [exact Hrun|].
  pose proof Hrun as Hval. vm_compute in Hval. injection Hval as <- <-.
  split; [exact (eq_trans Hshort eq_refl)|].
  exact (eq_trans (Hfull eq_refl) eq_refl).
Defined.

(** C3, counterexample. The relation category is declared inside the
    embedded "data" of Post with the join column named "k". The first spec
    with a name is that spec, yet the database name of the column that is
    materialized is "datak": the build step puts the embedded's prefix
    before the name. *)
Lemma embedded_join_column_is_prefixed :
  ∃ r h',
    collectColumn postgres [named "k"] dataCategory 2 embeddedBlog
    = (Returned r, h')
    ∧ namesJoinColumnOf (Heap.columns embeddedBlog !!! 2) (named "k")
    ∧ JoinColumnMetadataArgs.name (named "k") = Some "k"
    ∧ ColumnMetadata.databaseName (Heap.columns h' !!! r) = "datak"
    ∧ ColumnMetadata.databaseName (Heap.columns h' !!! r) ≠ "k".
Proof.
  eexists _, _. split; [vm_compute; reflexivity|].
  split; [split; [left; reflexivity | reflexivity]|].
  split; [reflexivity|]. split; [reflexivity | discriminate].
Qed.
